(** * NASA space explorer gallery: the date window, the filter and the views

    A shallow embedding of [js/script.js].  The script keeps a cache of
    APOD entries, filters it to the nine days ending on a chosen date,
    renders one tile per entry and shows a selected entry in a modal.

    The file has four parts:
    - the part of ECMAScript's [Date] the script calls (time values, the
      calendar functions of the language specification, local time,
      [Date.parse] for the date-only form, [toISOString]);
    - the strings, arrays and DOM nodes the script builds;
    - the functions of the script, over an explicit page state with a store
      of arrays;
    - the properties. *)

From Stdlib Require Import ZArith List String Ascii Bool Lia.
From Stdlib Require Import Permutation Sorted DecimalString.
From stdpp Require Import base gmap.

Import ListNotations.
Local Open Scope list_scope.
Local Open Scope string_scope.
Local Open Scope Z_scope.

(** ** Completions: a call returns a value or throws *)

Inductive Exception : Type :=
| RangeError (message : string).

Inductive Completion (A : Type) : Type :=
| Normal (value : A)
| Throw (e : Exception).

Arguments Normal {A} value.
Arguments Throw {A} e.

Definition bindC {A B : Type} (c : Completion A) (k : A -> Completion B)
  : Completion B :=
  match c with
  | Normal v => k v
  | Throw e => Throw e
  end.

Notation "'let?' x ':=' c 'in' k" := (bindC c (fun x => k))
  (at level 10, x name, c at level 100, k at level 200).

(** ** ECMAScript time values and calendar functions

    A time value is a number of milliseconds since the epoch, or NaN; a
    Number that is used as an integer here is modelled the same way, with
    [None] for NaN. *)

Module JSDate.

Definition Number := option Z.

Definition msPerDay : Z := 86400000.
Definition msPerHour : Z := 3600000.
Definition msPerMinute : Z := 60000.
Definition msPerSecond : Z := 1000.

Definition Day (t : Z) : Z := t / msPerDay.
Definition TimeWithinDay (t : Z) : Z := t mod msPerDay.

Definition DaysInYear (y : Z) : Z :=
  if negb (y mod 4 =? 0) then 365
  else if negb (y mod 100 =? 0) then 366
  else if negb (y mod 400 =? 0) then 365
  else 366.

Definition DayFromYear (y : Z) : Z :=
  365 * (y - 1970) + (y - 1969) / 4 - (y - 1901) / 100 + (y - 1601) / 400.

Definition TimeFromYear (y : Z) : Z := msPerDay * DayFromYear y.

(** The largest year [y] with [TimeFromYear y <= t]: an estimate from the
    mean length of a year, corrected by at most one year. *)
Definition YearFromDay (d : Z) : Z :=
  let y0 := 1970 + (d * 400) / 146097 in
  if d <? DayFromYear y0 then y0 - 1
  else if DayFromYear (y0 + 1) <=? d then y0 + 1
  else y0.

Definition YearFromTime (t : Z) : Z := YearFromDay (Day t).

Definition InLeapYear (t : Z) : Z :=
  if DaysInYear (YearFromTime t) =? 366 then 1 else 0.

Definition DayWithinYear (t : Z) : Z := Day t - DayFromYear (YearFromTime t).

(** Day within the year on which month [m] (0 = January) starts; [leap] is
    1 in a leap year and 0 otherwise. *)
Definition MonthStart (m leap : Z) : Z :=
  if m <=? 0 then 0
  else if m =? 1 then 31
  else if m =? 2 then 59 + leap
  else if m =? 3 then 90 + leap
  else if m =? 4 then 120 + leap
  else if m =? 5 then 151 + leap
  else if m =? 6 then 181 + leap
  else if m =? 7 then 212 + leap
  else if m =? 8 then 243 + leap
  else if m =? 9 then 273 + leap
  else if m =? 10 then 304 + leap
  else 334 + leap.

Definition MonthOfYearDay (dwy leap : Z) : Z :=
  if dwy <? 31 then 0
  else if dwy <? 59 + leap then 1
  else if dwy <? 90 + leap then 2
  else if dwy <? 120 + leap then 3
  else if dwy <? 151 + leap then 4
  else if dwy <? 181 + leap then 5
  else if dwy <? 212 + leap then 6
  else if dwy <? 243 + leap then 7
  else if dwy <? 273 + leap then 8
  else if dwy <? 304 + leap then 9
  else if dwy <? 334 + leap then 10
  else 11.

Definition MonthFromTime (t : Z) : Z :=
  MonthOfYearDay (DayWithinYear t) (InLeapYear t).

Definition DateFromTime (t : Z) : Z :=
  DayWithinYear t - MonthStart (MonthFromTime t) (InLeapYear t) + 1.

Definition HourFromTime (t : Z) : Z := (t / msPerHour) mod 24.
Definition MinFromTime (t : Z) : Z := (t / msPerMinute) mod 60.
Definition SecFromTime (t : Z) : Z := (t / msPerSecond) mod 60.
Definition msFromTime (t : Z) : Z := t mod msPerSecond.

(** [MakeDay]: the day number of the given year, month (0-based, any
    integer) and date (any integer); NaN when an argument is NaN. *)
Definition MakeDay (year month : Z) (date : Number) : Number :=
  match date with
  | None => None
  | Some dt =>
      let ym := year + month / 12 in
      let mn := month mod 12 in
      let leap := if DaysInYear ym =? 366 then 1 else 0 in
      Some (DayFromYear ym + MonthStart mn leap + dt - 1)
  end.

Definition MakeDate (day : Number) (time : Z) : Number :=
  match day with
  | None => None
  | Some d => Some (d * msPerDay + time)
  end.

Definition TimeClip (time : Number) : Number :=
  match time with
  | None => None
  | Some t => if 8640000000000000 <? Z.abs t then None else Some t
  end.

Definition DaysInMonth (y m : Z) : Z :=
  let leap := if DaysInYear y =? 366 then 1 else 0 in
  if m =? 11 then 31 else MonthStart (m + 1) leap - MonthStart m leap.

(** *** Decimal fields of the date-time string format *)

Definition digit_char (d : Z) : ascii :=
  match d with
  | 0 => "0" | 1 => "1" | 2 => "2" | 3 => "3" | 4 => "4"
  | 5 => "5" | 6 => "6" | 7 => "7" | 8 => "8" | _ => "9"
  end%char.

Definition digit_val (c : ascii) : option Z :=
  let n := Z.of_nat (nat_of_ascii c) in
  if (48 <=? n) && (n <=? 57) then Some (n - 48) else None.

Fixpoint pad_loop (k : nat) (n : Z) (acc : string) : string :=
  match k with
  | O => acc
  | S k' => pad_loop k' (n / 10) (String (digit_char (n mod 10)) acc)
  end.

(** [ToZeroPaddedDecimalString n minLength] for [0 <= n < 10 ^ minLength],
    which is how [toISOString] calls it: exactly [minLength] digits. *)
Definition ToZeroPaddedDecimalString (n : Z) (minLength : nat) : string :=
  pad_loop minLength n "".

(** The value of a string of decimal digits, [None] when a character is
    not a digit. *)
Fixpoint digits_val (acc : Z) (cs : list ascii) : option Z :=
  match cs with
  | [] => Some acc
  | c :: cs' =>
      match digit_val c with
      | Some d => digits_val (10 * acc + d) cs'
      | None => None
      end
  end.

(** The year field: four digits for the years 0 to 9999, otherwise a sign
    and six digits. *)
Definition YearString (y : Z) : string :=
  if (0 <=? y) && (y <=? 9999) then ToZeroPaddedDecimalString y 4
  else if 0 <? y then String "+" (ToZeroPaddedDecimalString y 6)
  else String "-" (ToZeroPaddedDecimalString (- y) 6).

(** The date-only form [YYYY-MM-DD] of the date-time string format. *)
Definition date_only_string (y m d : Z) : string :=
  ToZeroPaddedDecimalString y 4 ++ "-"
  ++ ToZeroPaddedDecimalString m 2 ++ "-"
  ++ ToZeroPaddedDecimalString d 2.

(** The date part and the time part of [Date.prototype.toISOString]. *)
Definition ISODateString (t : Z) : string :=
  YearString (YearFromTime t) ++ "-"
  ++ ToZeroPaddedDecimalString (MonthFromTime t + 1) 2 ++ "-"
  ++ ToZeroPaddedDecimalString (DateFromTime t) 2.

Definition ISOTimeString (t : Z) : string :=
  ToZeroPaddedDecimalString (HourFromTime t) 2 ++ ":"
  ++ ToZeroPaddedDecimalString (MinFromTime t) 2 ++ ":"
  ++ ToZeroPaddedDecimalString (SecFromTime t) 2 ++ "."
  ++ ToZeroPaddedDecimalString (msFromTime t) 3.

(** [Date.prototype.toISOString]: a RangeError on an invalid date. *)
Definition toISOString (tv : Number) : Completion string :=
  match tv with
  | None => Throw (RangeError "Invalid time value")
  | Some t => Normal (ISODateString t ++ "T" ++ ISOTimeString t ++ "Z")
  end.

(** [Date.parse] on the date-only form [YYYY-MM-DD] of the date-time string
    format, read as UTC midnight.  A string that is not an instance of that
    form, out-of-range month or day included, gives NaN: the other forms
    the format has (and what an engine accepts beyond the format) are not
    modelled, the script passes date-only strings.  So a result [Some t]
    is the time value every engine gives the string, while [None] stands
    for NaN only on a string that has none of those other forms, such as
    ["not-a-date"].  The result is clipped as the [Date] constructor clips
    it, which leaves these years as they are. *)
Definition Date_parse (s : string) : Number :=
  match list_ascii_of_string s with
  | [y1; y2; y3; y4; h1; m1; m2; h2; d1; d2] =>
      if Ascii.eqb h1 "-" && Ascii.eqb h2 "-" then
        match digits_val 0 [y1; y2; y3; y4],
              digits_val 0 [m1; m2], digits_val 0 [d1; d2] with
        | Some y, Some m, Some d =>
            if (1 <=? m) && (m <=? 12)
               && (1 <=? d) && (d <=? DaysInMonth y (m - 1))
            then TimeClip (MakeDate (MakeDay y (m - 1) (Some d)) 0)
            else None
        | _, _, _ => None
        end
      else None
  | _ => None
  end.

(** [new Date(string)]: the time value of the new object. *)
Definition Date_new (s : string) : Number := Date_parse s.

(** *** Local time

    [LocalTZA t isUTC] is the offset of the local time zone in
    milliseconds, at the UTC time [t] when [isUTC] and at the local time
    [t] otherwise; it belongs to the host, so it is a parameter. *)

Section LocalTime.

Variable LocalTZA : Z -> bool -> Z.

Definition LocalTime (t : Z) : Z := t + LocalTZA t true.
Definition UTC (t : Z) : Z := t - LocalTZA t false.

(** [Date.prototype.getDate]: the day of the month in local time. *)
Definition getDate (tv : Number) : Number :=
  match tv with
  | None => None
  | Some t => Some (DateFromTime (LocalTime t))
  end.

(** [Date.prototype.setDate]: the new time value of the object. *)
Definition setDate (tv : Number) (date : Number) : Number :=
  match tv with
  | None => None
  | Some t0 =>
      let t := LocalTime t0 in
      let newDate :=
        MakeDate (MakeDay (YearFromTime t) (MonthFromTime t) date)
                 (TimeWithinDay t) in
      TimeClip (option_map UTC newDate)
  end.

End LocalTime.

(** Number subtraction, NaN absorbing. *)
Definition Number_sub (a : Number) (b : Z) : Number :=
  option_map (fun x => x - b) a.

End JSDate.

(** ** Strings *)

(** [String.prototype.split] with a one-character separator. *)
Fixpoint split (sep : ascii) (s : string) : list string :=
  match s with
  | EmptyString => [EmptyString]
  | String c r =>
      if Ascii.eqb c sep then EmptyString :: split sep r
      else match split sep r with
           | h :: t => String c h :: t
           | [] => [String c EmptyString]
           end
  end.

(** [lacks sep s]: the character [sep] does not occur in [s]. *)
Fixpoint lacks (sep : ascii) (s : string) : bool :=
  match s with
  | EmptyString => true
  | String c r => negb (Ascii.eqb c sep) && lacks sep r
  end.

(** Relational comparison of two strings: code unit by code unit. *)
Definition str_le (a b : string) : bool := String.leb a b.

(** A Number that is a natural number, as a template literal prints it. *)
Definition nat_to_string (n : nat) : string :=
  NilEmpty.string_of_uint (Nat.to_uint n).

(** ** The script: constants and [getStartDate] *)

Definition GALLERY_DAYS : Z := 9.

Section Script.

Variable LocalTZA : Z -> bool -> Z.

(** [getStartDate(endDateString)].  [endDate] is a local [Date] object;
    its time value is threaded through the two calls that read and set
    it. *)
Definition getStartDate (endDateString : string) : Completion string :=
  let endDate := JSDate.Date_new endDateString in
  let endDate :=
    JSDate.setDate LocalTZA endDate
      (JSDate.Number_sub (JSDate.getDate LocalTZA endDate) (GALLERY_DAYS - 1)) in
  let? iso := JSDate.toISOString endDate in
  Normal (nth 0 (split "T"%char iso) EmptyString).

(** The time value [setDate] computes for [endDate] from the time value
    [t] it had, before [TimeClip]: eight days back on the local clock. *)
Definition start_time (t : Z) : Z :=
  let local := JSDate.LocalTime LocalTZA t in
  JSDate.UTC LocalTZA (local - (GALLERY_DAYS - 1) * JSDate.msPerDay).

End Script.

(** A host whose zone offset stays below a day, as every real zone does. *)
Definition zone_bounded (LocalTZA : Z -> bool -> Z) : Prop :=
  forall t isUTC, Z.abs (LocalTZA t isUTC) < JSDate.msPerDay.

(** A host whose zone offset never changes. *)
Definition zone_fixed (LocalTZA : Z -> bool -> Z) : Prop :=
  exists c, forall t isUTC, LocalTZA t isUTC = c.

(** Two hosts: one on UTC, and one on United States Eastern time in 2024
    (UTC-5, and UTC-4 from 10 March 07:00 UTC to 3 November 06:00 UTC; a
    local time that the clock change skips or repeats takes the offset
    from before the change). *)
Definition UTC_zone (t : Z) (isUTC : bool) : Z := 0.

Definition Eastern_2024 (t : Z) (isUTC : bool) : Z :=
  let est := -5 * JSDate.msPerHour in
  let edt := -4 * JSDate.msPerHour in
  let dst_on := 1710054000000 in
  let dst_off := 1730613600000 in
  if isUTC then
    if (dst_on <=? t) && (t <? dst_off) then edt else est
  else
    if (dst_on + edt <=? t) && (t <? dst_off + edt) then edt else est.

(** ** The data model and the page *)

(** An APOD entry.  The two optional fields are absent ([None]) or hold a
    string. *)
Record Entry : Type := mkEntry {
  date : string;
  title : string;
  explanation : string;
  media_type : string;
  url : string;
  hdurl : option string;
  thumbnail_url : option string
}.

(** [a || b] where [a] is an optional string: [a] when it is truthy, that
    is present and not empty. *)
Definition js_or (a : option string) (b : string) : string :=
  match a with
  | Some s => if String.eqb s "" then b else s
  | None => b
  end.

(** Truthiness of an optional message. *)
Definition truthy (a : option string) : bool :=
  match a with
  | Some s => negb (String.eqb s "")
  | None => false
  end.

(** The elements the script creates. *)
Inductive Node : Type :=
| GalleryItem (data_index : nat) (innerHTML : string) (onclick : Entry)
| VideoContainer (innerHTML : string)
| Img (src alt : string).

(** The state the script reads and writes: the store of arrays (arrays are
    held by reference), the variable [allAPODData], and the classes, text
    and children of the elements it looked up. *)
Record Page : Type := mkPage {
  arrays : gmap nat (list Entry);
  allAPODData : nat;
  loadingElement_hidden : bool;
  galleryContainer_hidden : bool;
  galleryContainer_children : list Node;
  errorElement_hidden : bool;
  errorText_textContent : string;
  modalElement_visible : bool;
  modalTitle_textContent : string;
  modalDate_textContent : string;
  modalExplanation_textContent : string;
  modalMediaContainer_children : list Node
}.

Definition set_arrays (v : gmap nat (list Entry)) (p : Page) : Page :=
  mkPage v (allAPODData p) (loadingElement_hidden p)
    (galleryContainer_hidden p) (galleryContainer_children p)
    (errorElement_hidden p) (errorText_textContent p)
    (modalElement_visible p) (modalTitle_textContent p)
    (modalDate_textContent p) (modalExplanation_textContent p)
    (modalMediaContainer_children p).

Definition set_allAPODData (v : nat) (p : Page) : Page :=
  mkPage (arrays p) v (loadingElement_hidden p)
    (galleryContainer_hidden p) (galleryContainer_children p)
    (errorElement_hidden p) (errorText_textContent p)
    (modalElement_visible p) (modalTitle_textContent p)
    (modalDate_textContent p) (modalExplanation_textContent p)
    (modalMediaContainer_children p).

Definition set_gallery_children (v : list Node) (p : Page) : Page :=
  mkPage (arrays p) (allAPODData p) (loadingElement_hidden p)
    (galleryContainer_hidden p) v
    (errorElement_hidden p) (errorText_textContent p)
    (modalElement_visible p) (modalTitle_textContent p)
    (modalDate_textContent p) (modalExplanation_textContent p)
    (modalMediaContainer_children p).

Definition set_error_hidden (v : bool) (p : Page) : Page :=
  mkPage (arrays p) (allAPODData p) (loadingElement_hidden p)
    (galleryContainer_hidden p) (galleryContainer_children p)
    v (errorText_textContent p)
    (modalElement_visible p) (modalTitle_textContent p)
    (modalDate_textContent p) (modalExplanation_textContent p)
    (modalMediaContainer_children p).

Definition set_modal_media (v : list Node) (p : Page) : Page :=
  mkPage (arrays p) (allAPODData p) (loadingElement_hidden p)
    (galleryContainer_hidden p) (galleryContainer_children p)
    (errorElement_hidden p) (errorText_textContent p)
    (modalElement_visible p) (modalTitle_textContent p)
    (modalDate_textContent p) (modalExplanation_textContent p) v.

Definition set_modal_visible (v : bool) (p : Page) : Page :=
  mkPage (arrays p) (allAPODData p) (loadingElement_hidden p)
    (galleryContainer_hidden p) (galleryContainer_children p)
    (errorElement_hidden p) (errorText_textContent p)
    v (modalTitle_textContent p)
    (modalDate_textContent p) (modalExplanation_textContent p)
    (modalMediaContainer_children p).

Definition set_modal_text (t d e : string) (p : Page) : Page :=
  mkPage (arrays p) (allAPODData p) (loadingElement_hidden p)
    (galleryContainer_hidden p) (galleryContainer_children p)
    (errorElement_hidden p) (errorText_textContent p)
    (modalElement_visible p) t d e
    (modalMediaContainer_children p).

(** *** Arrays *)

(** The array a reference denotes. *)
Definition deref (p : Page) (r : nat) : list Entry :=
  default [] (arrays p !! r).

(** A reference to a new array: distinct from every array in the store and
    from the one [allAPODData] holds. *)
Definition alloc (l : list Entry) (p : Page) : nat * Page :=
  let r := fresh (dom (arrays p) ∪ {[allAPODData p]}) in
  (r, set_arrays (<[r := l]> (arrays p)) p).

(** [Array.prototype.filter]: a new array, the receiver is only read. *)
Definition Array_filter (f : Entry -> bool) (r : nat) (p : Page)
  : nat * Page :=
  alloc (List.filter f (deref p r)) p.

(** [SortCompare] with a comparison function: NaN counts as [+0]. *)
Definition SortCompare (comparefn : Entry -> Entry -> JSDate.Number)
  (x y : Entry) : Z :=
  match comparefn x y with
  | Some v => v
  | None => 0
  end.

(** The order [Array.prototype.sort] produces is fixed by the language for
    a consistent comparison function: the stable sorted order.  It is
    computed here by insertion, an element going before the first one it
    does not have to follow.  Where the comparison function answers NaN on
    some pair the language leaves the order to the engine; what is fixed
    then is that the result holds the same elements. *)
Fixpoint sort_insert (comparefn : Entry -> Entry -> JSDate.Number)
  (x : Entry) (l : list Entry) : list Entry :=
  match l with
  | [] => [x]
  | y :: l' =>
      if SortCompare comparefn x y <=? 0 then x :: y :: l'
      else y :: sort_insert comparefn x l'
  end.

Fixpoint sort_list (comparefn : Entry -> Entry -> JSDate.Number)
  (l : list Entry) : list Entry :=
  match l with
  | [] => []
  | x :: l' => sort_insert comparefn x (sort_list comparefn l')
  end.

(** [Array.prototype.sort]: sorts the receiver in place and returns it. *)
Definition Array_sort (comparefn : Entry -> Entry -> JSDate.Number)
  (r : nat) (p : Page) : nat * Page :=
  (r, set_arrays (<[r := sort_list comparefn (deref p r)]> (arrays p)) p).

(** *** Markup *)

Definition dq : string := String (ascii_of_nat 34) "".

(** A line break followed by [n] spaces, as inside a template literal. *)
Fixpoint spaces (n : nat) : string :=
  match n with
  | O => ""
  | S n' => String " " (spaces n')
  end.

Definition nl (n : nat) : string := String (ascii_of_nat 10) (spaces n).

Definition icon : string :=
  "<svg xmlns=" ++ dq ++ "http://www.w3.org/2000/svg" ++ dq ++ " viewBox="
  ++ dq ++ "0 0 24 24" ++ dq ++ " fill=" ++ dq ++ "currentColor" ++ dq
  ++ "><path d=" ++ dq
  ++ "M6.3 2.841A1.5 1.5 0 0 1 7.643 2h8.714c.52 0 1.018.232 1.342.641l2.484 3.194a1.5 1.5 0 0 1 .117.75l-.946 5.86a1.5 1.5 0 0 1-1.464 1.255H4.729a1.5 1.5 0 0 1-1.464-1.255l-.946-5.86a1.5 1.5 0 0 1 .117-.75l2.484-3.194Zm-4.939 12.634a1.5 1.5 0 0 0-.254.912c.002.396.155.772.428 1.056l3.245 3.328a.75.75 0 0 0 1.036-.089l1.621-2.181a.75.75 0 0 0-.001-1.077l-1.636-1.78a.75.75 0 0 0-1.06-.017l-3.344 3.424Zm20.402 3.328a1.5 1.5 0 0 0 .428-1.056c.002-.396-.15-.772-.424-1.056l-3.344-3.424a.75.75 0 0 0-1.06.017l-1.636 1.78a.75.75 0 0 0-.001 1.077l1.621 2.181a.75.75 0 0 0 1.036.089l3.245-3.328Zm-4.85-8.484a.75.75 0 0 0-1.06 0l-.84.858a.75.75 0 0 0 0 1.06l.84.858a.75.75 0 0 0 1.06 0l.84-.858a.75.75 0 0 0 0-1.06l-.84-.858ZM12 9a1 1 0 1 0 0 2 1 1 0 0 0 0-2Z"
  ++ dq ++ "/></svg>".

(** The three previews of a tile. *)
Definition videoPlaceholderHTML : string :=
  "<div class=" ++ dq ++ "media-placeholder" ++ dq ++ ">" ++ icon
  ++ "Video Content Available</div>".

Definition videoThumbnailHTML (thumbnailUrl title : string) : string :=
  nl 20 ++ "<div class=" ++ dq ++ "media-placeholder" ++ dq ++ ">" ++ nl 24
  ++ "<img src=" ++ dq ++ thumbnailUrl ++ dq ++ " alt=" ++ dq ++ title
  ++ " Thumbnail" ++ dq ++ " onerror=" ++ dq
  ++ "this.onerror=null; this.src='https://placehold.co/400x200/334155/f87171?text=Video+Content';"
  ++ dq ++ " />" ++ nl 24 ++ "<div class=" ++ dq ++ "video-overlay" ++ dq
  ++ ">" ++ icon ++ " Click to Play</div>" ++ nl 20 ++ "</div>".

Definition imageHTML (url title : string) : string :=
  nl 16 ++ "<img src=" ++ dq ++ url ++ dq ++ " alt=" ++ dq ++ title ++ dq
  ++ " " ++ nl 21 ++ "onerror=" ++ dq
  ++ "this.onerror=null; this.src='https://placehold.co/400x200/334155/e2e8f0?text=Image+Not+Available';"
  ++ dq ++ " />" ++ nl 12.

(** The markup of a tile around its preview. *)
Definition itemHTML (mediaHTML title date : string) : string :=
  nl 12 ++ "<div class=" ++ dq ++ "gallery-item-media" ++ dq ++ ">"
  ++ mediaHTML ++ "</div>" ++ nl 12 ++ "<div class=" ++ dq
  ++ "gallery-item-details" ++ dq ++ ">" ++ nl 16 ++ "<h3>" ++ title
  ++ "</h3>" ++ nl 16 ++ "<p>" ++ date ++ "</p>" ++ nl 12 ++ "</div>"
  ++ nl 8.

Definition iframeHTML (url : string) : string :=
  "<iframe src=" ++ dq ++ url ++ dq ++ " allowfullscreen></iframe>".

Definition insufficientMessage (len : nat) : string :=
  "Only found " ++ nat_to_string len
  ++ " entries. The selected date range might be too far in the past or data is missing.".

(** ** The functions of the script *)

(** [updateUIState(isLoading = false, errorMessage = null)];
    [classList.toggle('hidden', force)] sets the class to [force]. *)
Definition updateUIState (isLoading : bool) (errorMessage : option string)
  (p : Page) : Page :=
  mkPage (arrays p) (allAPODData p)
    (negb isLoading)
    (isLoading || truthy errorMessage)
    (galleryContainer_children p)
    (negb (truthy errorMessage))
    (if truthy errorMessage then default "" errorMessage
     else errorText_textContent p)
    (modalElement_visible p) (modalTitle_textContent p)
    (modalDate_textContent p) (modalExplanation_textContent p)
    (modalMediaContainer_children p).

(** The tile [renderGallery] builds for one entry: a [div.gallery-item]
    with its index, its markup and a click listener that opens [item]. *)
Definition mediaHTML_of (item : Entry) : string :=
  if String.eqb (media_type item) "video" then
    let thumbnailUrl := js_or (thumbnail_url item) "placeholder" in
    if String.eqb thumbnailUrl "placeholder" then videoPlaceholderHTML
    else videoThumbnailHTML thumbnailUrl (title item)
  else imageHTML (url item) (title item).

Definition itemElement (item : Entry) (index : nat) : Node :=
  GalleryItem index
    (itemHTML (mediaHTML_of item) (title item) (date item)) item.

Definition appendChild_gallery (n : Node) (p : Page) : Page :=
  set_gallery_children (galleryContainer_children p ++ [n])%list p.

(** [data.forEach((item, index) => ...)]. *)
Fixpoint forEach (callback : Entry -> nat -> Page -> Page)
  (data : list Entry) (index : nat) (p : Page) : Page :=
  match data with
  | [] => p
  | item :: rest => forEach callback rest (S index) (callback item index p)
  end.

(** [renderGallery(data)]. *)
Definition renderGallery (data : nat) (p : Page) : Page :=
  let p := set_gallery_children [] p in
  let p :=
    forEach (fun item index q => appendChild_gallery (itemElement item index) q)
      (deref p data) 0 p in
  updateUIState false None p.

(** [openModal(item)]. *)
Definition openModal (item : Entry) (p : Page) : Page :=
  let p := set_modal_text (title item) (date item) (explanation item) p in
  let p := set_modal_media [] p in
  let p :=
    if String.eqb (media_type item) "video" then
      set_modal_media
        (modalMediaContainer_children p ++ [VideoContainer (iframeHTML (url item))])%list p
    else
      let imageUrl := js_or (hdurl item) (url item) in
      set_modal_media
        (modalMediaContainer_children p ++ [Img imageUrl (title item)])%list p in
  set_modal_visible true p.

(** [closeModal()]. *)
Definition closeModal (p : Page) : Page :=
  let p := set_modal_visible false p in
  set_modal_media [] p.

Section Gallery.

Variable LocalTZA : Z -> bool -> Z.

(** The predicate of the filter in [filterAndRenderGallery]. *)
Definition in_window (startDateString endDateString : string) (item : Entry)
  : bool :=
  str_le startDateString (date item) && str_le (date item) endDateString.

(** The comparison function of the sort:
    [new Date(b.date) - new Date(a.date)].  It is the engine's difference
    on two entries with calendar dates in the form [YYYY-MM-DD]. *)
Definition by_date_descending (a b : Entry) : JSDate.Number :=
  match JSDate.Date_new (date b), JSDate.Date_new (date a) with
  | Some tb, Some ta => Some (tb - ta)
  | _, _ => None
  end.

(** The initialiser of [filteredData]:
    [allAPODData.filter(...).sort(...)]. *)
Definition filteredData_of (startDateString endDateString : string)
  (p : Page) : nat * Page :=
  let (filtered, p) :=
    Array_filter (in_window startDateString endDateString) (allAPODData p) p in
  Array_sort by_date_descending filtered p.

(** [filterAndRenderGallery(endDateString)]: the completion of the call
    and the page it leaves. *)
Definition filterAndRenderGallery (endDateString : string) (p : Page)
  : Completion unit * Page :=
  let p := updateUIState true None p in
  let p := set_gallery_children [] p in
  let p := set_error_hidden true p in
  match getStartDate LocalTZA endDateString with
  | Throw e => (Throw e, p)
  | Normal startDateString =>
      let (filteredData, p) :=
        filteredData_of startDateString endDateString p in
      if Z.of_nat (length (deref p filteredData)) <? GALLERY_DAYS then
        (Normal tt,
         updateUIState false
           (Some (insufficientMessage (length (deref p filteredData)))) p)
      else (Normal tt, renderGallery filteredData p)
  end.

(** *** Events *)

Inductive Event : Type :=
| ExploreClick (selectedDate : string)
| TileClick (index : nat)
| ModalClick (target_is_modal : bool)
| KeyDown (key : string)
| CloseClick.

(** The listeners the script registers.  For [CloseClick]:
    Modelled from the spec: the close control is bound in the page's
    markup, which is not part of the script; the spec has the explicit
    close action dismiss the detail view, which is [closeModal]. *)
Definition dispatch (ev : Event) (p : Page) : Completion unit * Page :=
  match ev with
  | ExploreClick selectedDate =>
      if truthy (Some selectedDate) then
        filterAndRenderGallery selectedDate p
      else
        (Normal tt,
         updateUIState false (Some "Please select a valid end date.") p)
  | TileClick index =>
      match nth_error (galleryContainer_children p) index with
      | Some (GalleryItem _ _ item) => (Normal tt, openModal item p)
      | _ => (Normal tt, p)
      end
  | ModalClick target_is_modal =>
      if target_is_modal then (Normal tt, closeModal p) else (Normal tt, p)
  | KeyDown key =>
      if String.eqb key "Escape" && modalElement_visible p
      then (Normal tt, closeModal p)
      else (Normal tt, p)
  | CloseClick => (Normal tt, closeModal p)
  end.

(** The three ways of dismissing the detail view. *)
Definition dismissal (ev : Event) (p : Page) : bool :=
  match ev with
  | CloseClick => true
  | ModalClick target_is_modal => target_is_modal
  | KeyDown key => String.eqb key "Escape" && modalElement_visible p
  | _ => false
  end.

End Gallery.

(** *** Notions the properties are stated with *)

(** The cached dataset: the array [allAPODData] refers to. *)
Definition cache (p : Page) : list Entry := deref p (allAPODData p).

(** The tiles of the entries [data], numbered from [index]. *)
Fixpoint tiles (index : nat) (data : list Entry) : list Node :=
  match data with
  | [] => []
  | item :: rest => itemElement item index :: tiles (S index) rest
  end.

(** What [filteredData] holds: the entries of the cache inside the window,
    sorted. *)
Definition selection (startDateString endDateString : string) (p : Page)
  : list Entry :=
  sort_list by_date_descending
    (List.filter (in_window startDateString endDateString) (cache p)).

(** An entry whose date is a calendar date in the form [YYYY-MM-DD]. *)
Definition well_dated (item : Entry) : bool :=
  match JSDate.Date_parse (date item) with
  | Some _ => true
  | None => false
  end.

Definition dated (item : Entry) : Prop :=
  JSDate.Date_parse (date item) <> None.

(** [a] is at least as recent as [b], both dates being calendar dates. *)
Definition not_older (a b : Entry) : Prop :=
  exists ta tb,
    JSDate.Date_parse (date a) = Some ta
    /\ JSDate.Date_parse (date b) = Some tb /\ tb <= ta.

(** The entries of [data] dated [d], in the order of [data]. *)
Definition dated_on (d : string) (data : list Entry) : list Entry :=
  List.filter (fun item => String.eqb (date item) d) data.

(** A page before any data is loaded: [allAPODData] is an empty array, the
    gallery and the modal are empty. *)
Definition initial_page : Page :=
  mkPage {[ 0%nat := [] ]} 0 true false [] true "" false "" "" "" [].

(** A page whose cache holds [data]. *)
Definition page_with (data : list Entry) : Page :=
  set_arrays {[ 0%nat := data ]} initial_page.

(** *** Sample data *)

Definition picture (d : string) : Entry :=
  mkEntry d ("Sky on " ++ d) "What the picture shows." "image"
    ("https://apod.example/" ++ d ++ ".jpg")
    (Some ("https://apod.example/" ++ d ++ "_hd.jpg")) None.

Definition film (d : string) (thumbnail : option string) : Entry :=
  mkEntry d ("Film of " ++ d) "What the film shows." "video"
    ("https://video.example/embed/" ++ d) None thumbnail.

(** Ten entries, 1 to 10 January 2024, oldest first. *)
Definition january : list Entry :=
  map picture
    ["2024-01-01"; "2024-01-02"; "2024-01-03"; "2024-01-04"; "2024-01-05";
     "2024-01-06"; "2024-01-07"; "2024-01-08"; "2024-01-09"; "2024-01-10"].

(** The same with a second entry for 5 January. *)
Definition january_and_film : list Entry :=
  (january ++ [film "2024-01-05" None])%list.

(** ** Today's date, the load and the listeners *)

(** [getTodayDate()], given the reading [now] of the clock, which is the
    time value of [new Date()]. *)
Definition getTodayDate (now : Z) : Completion string :=
  let? iso := JSDate.toISOString (Some now) in
  Normal (nth 0 (split "T"%char iso) EmptyString).

(** The page together with the date control [endDateInput]: the value it
    holds and its [max] attribute. *)
Record Document : Type := mkDocument {
  page : Page;
  endDateInput_value : string;
  endDateInput_max : option string
}.

Definition set_page (v : Page) (d : Document) : Document :=
  mkDocument v (endDateInput_value d) (endDateInput_max d).

Definition set_input_value (v : string) (d : Document) : Document :=
  mkDocument (page d) v (endDateInput_max d).

Definition set_input_max (v : option string) (d : Document) : Document :=
  mkDocument (page d) (endDateInput_value d) v.

(** What a date control keeps of a value the script assigns: a valid date
    string stays, anything else becomes the empty string.  A valid date
    string has a year above 0; the script assigns what [getTodayDate]
    returns, which has four year digits exactly in the years 0 to 9999. *)
Definition date_value_sanitized (s : string) : string :=
  match JSDate.Date_parse s with
  | Some t => if JSDate.TimeFromYear 1 <=? t then s else ""
  | None => ""
  end.

(** The message of the [catch] clause of [fetchAPODData]. *)
Definition loadFailedMessage : string :=
  "Failed to load core data from the JSON source. Please check the URL or network connection.".

Section Loading.

Variable LocalTZA : Z -> bool -> Z.

(** [fetchAPODData()] up to its first [await]. *)
Definition fetchAPODData_begin (d : Document) : Document :=
  set_page (set_gallery_children [] (updateUIState true None (page d))) d.

(** [fetchAPODData()] from the moment the request is settled: [response]
    is the parsed body, or [None] for a network error, a response that is
    not ok or a body that is not JSON; [now] is the clock then.  An
    exception inside the [try] block ends in the [catch] clause. *)
Definition fetchAPODData_settle (response : option (list Entry)) (now : Z)
  (d : Document) : Document :=
  let failed := updateUIState false (Some loadFailedMessage) in
  match response with
  | None => set_page (failed (page d)) d
  | Some json =>
      let (r, p) := alloc json (page d) in
      let p := set_allAPODData r p in
      match getTodayDate now with
      | Throw _ => set_page (failed p) d
      | Normal today =>
          let d := set_input_value (date_value_sanitized today) d in
          match filterAndRenderGallery LocalTZA today p with
          | (Normal _, p') => set_page p' d
          | (Throw _, p') => set_page (failed p') d
          end
      end
  end.

(** The whole of [fetchAPODData()] when nothing happens while the request
    is under way. *)
Definition fetchAPODData (response : option (list Entry)) (now : Z)
  (d : Document) : Document :=
  fetchAPODData_settle response now (fetchAPODData_begin d).

(** What happens to the document: the [DOMContentLoaded] listener runs,
    the request is settled, the user picks a date (the control then holds
    [value]), the user presses Explore (the listener reads the control), or
    one of the events of [dispatch] occurs.  The listener of
    [DOMContentLoaded] also calls [displayRandomFact], which writes to an
    element that is not part of this state, and registers the other
    listeners, which are taken here as registered throughout. *)
Inductive Happening : Type :=
| DOMContentLoaded (now : Z)
| FetchSettled (response : option (list Entry)) (now : Z)
| DateInput (value : string)
| ExploreButton
| PageEvent (ev : Event).

Definition happen (h : Happening) (d : Document)
  : Completion unit * Document :=
  match h with
  | DOMContentLoaded now =>
      match getTodayDate now with
      | Throw e => (Throw e, d)
      | Normal today =>
          (Normal tt, fetchAPODData_begin (set_input_max (Some today) d))
      end
  | FetchSettled response now =>
      (Normal tt, fetchAPODData_settle response now d)
  | DateInput value => (Normal tt, set_input_value value d)
  | ExploreButton =>
      let (c, p) :=
        dispatch LocalTZA (ExploreClick (endDateInput_value d)) (page d) in
      (c, set_page p d)
  | PageEvent ev =>
      let (c, p) := dispatch LocalTZA ev (page d) in (c, set_page p d)
  end.

(** A sequence of happenings; an exception ends the listener it occurs
    in, not the page. *)
Fixpoint run (hs : list Happening) (d : Document) : Document :=
  match hs with
  | [] => d
  | h :: rest => run rest (snd (happen h d))
  end.

End Loading.

(** *** What is on screen, and what the script keeps true *)

(** The state of the gallery area: the three [hidden] classes, the error
    text and the tiles. *)
Definition gallery_view (p : Page)
  : bool * bool * bool * string * list Node :=
  (loadingElement_hidden p, galleryContainer_hidden p, errorElement_hidden p,
   errorText_textContent p, galleryContainer_children p).

(** The state of the modal. *)
Definition modal_view (p : Page)
  : bool * string * string * string * list Node :=
  (modalElement_visible p, modalTitle_textContent p, modalDate_textContent p,
   modalExplanation_textContent p, modalMediaContainer_children p).

(** The entry a tile opens. *)
Definition tile_entry (n : Node) : option Entry :=
  match n with
  | GalleryItem _ _ item => Some item
  | _ => None
  end.

(** The gallery is empty or has at least nine tiles. *)
Definition all_or_nothing (p : Page) : Prop :=
  galleryContainer_children p = []
  \/ (9 <= length (galleryContainer_children p))%nat.

(** Every tile is the tile of an entry of the cache. *)
Definition tiles_of_cache (p : Page) : Prop :=
  forall n, In n (galleryContainer_children p) ->
  exists i item, n = itemElement item i /\ In item (cache p).

(** While the gallery is shown, neither the loading indicator nor the
    error is. *)
Definition gallery_shown_alone (p : Page) : Prop :=
  galleryContainer_hidden p = false ->
  loadingElement_hidden p = true /\ errorElement_hidden p = true.

(** The modal holds at most one media element, and none while it is not
    visible. *)
Definition modal_media_guarded (p : Page) : Prop :=
  (length (modalMediaContainer_children p) <= 1)%nat
  /\ (modalElement_visible p = false -> modalMediaContainer_children p = []).

(** A document before [DOMContentLoaded]. *)
Definition initial_document : Document := mkDocument initial_page "" None.

(** A session with the page: it loads, the user looks at 5 January, clicks
    where no tile is, explores 9 January, opens the third tile and closes
    it with Escape.  The clock reads 9 January 2024, 11:33:20 UTC. *)
Definition a_session : list Happening :=
  [DOMContentLoaded 1704800000000;
   FetchSettled (Some january) 1704800000500;
   DateInput "2024-01-05"; ExploreButton;
   PageEvent (TileClick 0);
   DateInput "2024-01-09"; ExploreButton;
   PageEvent (TileClick 2); PageEvent (KeyDown "Escape")].

(** *** Notions of the corrected claims *)

(** The statements of [getStartDate] that follow
    [new Date(endDateString)], on the time value [endDate] of that object,
    whatever string it was built from. *)
Definition getStartDate_from (LocalTZA : Z -> bool -> Z)
  (endDate : JSDate.Number) : Completion string :=
  let endDate :=
    JSDate.setDate LocalTZA endDate
      (JSDate.Number_sub (JSDate.getDate LocalTZA endDate) (GALLERY_DAYS - 1)) in
  let? iso := JSDate.toISOString endDate in
  Normal (nth 0 (split "T"%char iso) EmptyString).



(** * Properties *)

Import JSDate.

(** ** The calendar *)

Ltac split_ifs :=
  repeat match goal with
  | |- context [if ?b then _ else _] => destruct b eqn:?
  end;
  repeat match goal with
  | H : negb _ = true |- _ => apply negb_true_iff in H
  | H : negb _ = false |- _ => apply negb_false_iff in H
  | H : (_ =? _) = true |- _ => apply Z.eqb_eq in H
  | H : (_ =? _) = false |- _ => apply Z.eqb_neq in H
  | H : (_ <? _) = true |- _ => apply Z.ltb_lt in H
  | H : (_ <? _) = false |- _ => apply Z.ltb_ge in H
  | H : (_ <=? _) = true |- _ => apply Z.leb_le in H
  | H : (_ <=? _) = false |- _ => apply Z.leb_gt in H
  end.

Lemma YearFromDay_spec d :
  DayFromYear (YearFromDay d) <= d < DayFromYear (YearFromDay d + 1).
Proof.
  unfold YearFromDay, DayFromYear. split_ifs; Z.div_mod_to_equations; lia.
Qed.

Lemma DayFromYear_succ y : DayFromYear (y + 1) = DayFromYear y + DaysInYear y.
Proof.
  unfold DayFromYear, DaysInYear. split_ifs; Z.div_mod_to_equations; lia.
Qed.

Lemma DayFromYear_mono y1 y2 : y1 <= y2 -> DayFromYear y1 <= DayFromYear y2.
Proof.
  unfold DayFromYear. intros. Z.div_mod_to_equations; lia.
Qed.

Lemma DaysInYear_cases y : DaysInYear y = 365 \/ DaysInYear y = 366.
Proof. unfold DaysInYear. split_ifs; auto. Qed.

Lemma DayWithinYear_range t :
  0 <= DayWithinYear t < DaysInYear (YearFromTime t).
Proof.
  unfold DayWithinYear, YearFromTime.
  pose proof (YearFromDay_spec (Day t)) as H.
  rewrite DayFromYear_succ in H. lia.
Qed.

Lemma MonthFromTime_range t : 0 <= MonthFromTime t <= 11.
Proof. unfold MonthFromTime, MonthOfYearDay. split_ifs; lia. Qed.

Lemma DateFromTime_range t :
  1 <= DateFromTime t <= DaysInMonth (YearFromTime t) (MonthFromTime t).
Proof.
  pose proof (DayWithinYear_range t) as H.
  unfold DateFromTime, MonthFromTime, DaysInMonth, InLeapYear in *.
  destruct (DaysInYear_cases (YearFromTime t)) as [E|E]; rewrite E in *; simpl (_ =? 366) in *; cbv iota.
  all: unfold MonthOfYearDay; split_ifs; try lia.
  all: unfold MonthStart; simpl; try lia.
Qed.

Lemma MakeDay_of_time t dt :
  MakeDay (YearFromTime t) (MonthFromTime t) (Some dt)
  = Some (Day t - DateFromTime t + dt).
Proof.
  pose proof (MonthFromTime_range t) as Hm.
  unfold MakeDay. cbv zeta. rewrite (Z.div_small (MonthFromTime t) 12), (Z.mod_small (MonthFromTime t) 12) by lia. rewrite Z.add_0_r.
  unfold DateFromTime, DayWithinYear, InLeapYear. f_equal. lia.
Qed.

(** ** Decimal fields and [Date.parse] *)

Lemma digit_val_digit_char d : 0 <= d <= 9 -> digit_val (digit_char d) = Some d.
Proof.
  intros H.
  assert (d = 0 \/ d = 1 \/ d = 2 \/ d = 3 \/ d = 4 \/ d = 5 \/ d = 6 \/ d = 7 \/ d = 8 \/ d = 9) as Hc by lia.
  repeat (destruct Hc as [-> | Hc]; [reflexivity|]). subst; reflexivity.
Qed.

Lemma digit_val_range c d : digit_val c = Some d -> 0 <= d <= 9.
Proof.
  unfold digit_val. destruct (_ && _) eqn:E; [|discriminate].
  intros [= <-]. apply andb_true_iff in E as [E1 E2]. lia.
Qed.

Lemma pad2_eq n :
  ToZeroPaddedDecimalString n 2
  = String (digit_char (n / 10 mod 10)) (String (digit_char (n mod 10)) "").
Proof. reflexivity. Qed.

Lemma pad4_eq n :
  ToZeroPaddedDecimalString n 4
  = String (digit_char (n / 10 / 10 / 10 mod 10))
      (String (digit_char (n / 10 / 10 mod 10))
         (String (digit_char (n / 10 mod 10))
            (String (digit_char (n mod 10)) ""))).
Proof. reflexivity. Qed.

Lemma digits_val2 n : 0 <= n <= 99 ->
  digits_val 0 [digit_char (n / 10 mod 10); digit_char (n mod 10)] = Some n.
Proof.
  intros H. cbn [digits_val].
  rewrite !digit_val_digit_char by (Z.div_mod_to_equations; lia).
  f_equal. Z.div_mod_to_equations; lia.
Qed.

Lemma digits_val4 n : 0 <= n <= 9999 ->
  digits_val 0 [digit_char (n / 10 / 10 / 10 mod 10); digit_char (n / 10 / 10 mod 10);
                digit_char (n / 10 mod 10); digit_char (n mod 10)] = Some n.
Proof.
  intros H. cbn [digits_val].
  rewrite !digit_val_digit_char by (Z.div_mod_to_equations; lia).
  f_equal. Z.div_mod_to_equations; lia.
Qed.

Lemma year_of_day_range d :
  DayFromYear 0 <= d < DayFromYear 10000 <-> 0 <= YearFromDay d <= 9999.
Proof.
  pose proof (YearFromDay_spec d) as H.
  split; intros Hd.
  - split.
    + destruct (Z_lt_le_dec (YearFromDay d) 0) as [Hlt|]; [|lia].
      pose proof (DayFromYear_mono (YearFromDay d + 1) 0 ltac:(lia)). lia.
    + destruct (Z_lt_le_dec 9999 (YearFromDay d)) as [Hlt|]; [|lia].
      pose proof (DayFromYear_mono 10000 (YearFromDay d) ltac:(lia)). lia.
  - pose proof (DayFromYear_mono 0 (YearFromDay d) ltac:(lia)).
    pose proof (DayFromYear_mono (YearFromDay d + 1) 10000 ltac:(lia)). lia.
Qed.

Lemma MonthStart_DaysInMonth y m :
  0 <= m <= 11 ->
  let leap := if DaysInYear y =? 366 then 1 else 0 in
  0 <= MonthStart m leap /\ 28 <= DaysInMonth y m
  /\ MonthStart m leap + DaysInMonth y m <= DaysInYear y.
Proof.
  intros Hm. unfold DaysInMonth.
  destruct (DaysInYear_cases y) as [E|E]; rewrite E; cbn zeta.
  all: assert (m = 0 \/ m = 1 \/ m = 2 \/ m = 3 \/ m = 4 \/ m = 5 \/ m = 6
               \/ m = 7 \/ m = 8 \/ m = 9 \/ m = 10 \/ m = 11) as Hc by lia.
  all: repeat (destruct Hc as [-> | Hc]; [unfold MonthStart; simpl; lia|]).
  all: subst; unfold MonthStart; simpl; lia.
Qed.

Lemma MakeDay_valid_range y m d :
  0 <= y <= 9999 -> 0 <= m <= 11 -> 1 <= d <= DaysInMonth y m ->
  exists k, MakeDay y m (Some d) = Some k
            /\ DayFromYear 0 <= k < DayFromYear 10000.
Proof.
  intros Hy Hm Hd. unfold MakeDay. cbv zeta.
  rewrite (Z.div_small m 12), (Z.mod_small m 12), Z.add_0_r by lia.
  eexists; split; [reflexivity|].
  pose proof (MonthStart_DaysInMonth y m Hm) as (H1 & H2 & H3).
  pose proof (DayFromYear_mono 0 y ltac:(lia)).
  pose proof (DayFromYear_mono (y + 1) 10000 ltac:(lia)).
  rewrite DayFromYear_succ in *. lia.
Qed.

Lemma digits_val_range4 a b c d n :
  digits_val 0 [a; b; c; d] = Some n -> 0 <= n <= 9999.
Proof.
  cbn [digits_val].
  destruct (digit_val a) eqn:Ea; [|discriminate].
  destruct (digit_val b) eqn:Eb; [|discriminate].
  destruct (digit_val c) eqn:Ec; [|discriminate].
  destruct (digit_val d) eqn:Ed; [|discriminate].
  apply digit_val_range in Ea, Eb, Ec, Ed. intros [= <-]. lia.
Qed.

Lemma TimeClip_small t :
  Z.abs t <= 8640000000000000 -> TimeClip (Some t) = Some t.
Proof.
  intros H. unfold TimeClip.
  destruct (8640000000000000 <? Z.abs t) eqn:E; [|reflexivity].
  apply Z.ltb_lt in E. lia.
Qed.

Lemma TimeClip_Some n t : TimeClip n = Some t -> n = Some t.
Proof.
  destruct n as [x|]; [|discriminate]. unfold TimeClip.
  destruct (_ <? _); [discriminate|auto].
Qed.

(** A string [Date.parse] accepts denotes midnight of a day of the years
    0 to 9999. *)
Lemma Date_parse_inv s t :
  Date_parse s = Some t ->
  exists k, t = k * msPerDay /\ DayFromYear 0 <= k < DayFromYear 10000.
Proof.
  unfold Date_parse.
  destruct (list_ascii_of_string s) as [|y1 l]; [discriminate|].
  destruct l as [|y2 l]; [discriminate|].
  destruct l as [|y3 l]; [discriminate|].
  destruct l as [|y4 l]; [discriminate|].
  destruct l as [|h1 l]; [discriminate|].
  destruct l as [|m1 l]; [discriminate|].
  destruct l as [|m2 l]; [discriminate|].
  destruct l as [|h2 l]; [discriminate|].
  destruct l as [|d1 l]; [discriminate|].
  destruct l as [|d2 l]; [discriminate|].
  destruct l; [|discriminate].
  destruct (_ && _); [|discriminate].
  destruct (digits_val 0 [y1; y2; y3; y4]) as [y|] eqn:Ey; [|discriminate].
  destruct (digits_val 0 [m1; m2]) as [m|] eqn:Em; [|discriminate].
  destruct (digits_val 0 [d1; d2]) as [d|] eqn:Ed; [|discriminate].
  destruct (_ && _) eqn:Ev; [|discriminate].
  apply digits_val_range4 in Ey.
  repeat (apply andb_true_iff in Ev as [Ev ?]).
  destruct (MakeDay_valid_range y (m - 1) d) as (k & Hk & Hr); [lia..|].
  rewrite Hk. intros Ht. apply TimeClip_Some in Ht.
  injection Ht as <-. exists k. split; [lia|exact Hr].
Qed.

Lemma Date_parse_ISODateString t :
  0 <= YearFromTime t <= 9999 ->
  Date_parse (ISODateString t) = Some (Day t * msPerDay).
Proof.
  intros Hy.
  pose proof (MonthFromTime_range t) as Hm.
  pose proof (DateFromTime_range t) as Hd.
  pose proof (MonthStart_DaysInMonth (YearFromTime t) (MonthFromTime t) Hm)
    as (_ & _ & Hdim).
  pose proof (DaysInYear_cases (YearFromTime t)) as Hdy.
  pose proof (MonthStart_DaysInMonth (YearFromTime t) (MonthFromTime t) Hm) as Hms.
  assert (DaysInMonth (YearFromTime t) (MonthFromTime t) <= 31) as Hd31.
  { clear. unfold DaysInMonth, MonthStart. split_ifs; lia. }
  unfold ISODateString, YearString.
  replace ((0 <=? YearFromTime t) && (YearFromTime t <=? 9999)) with true
    by (symmetry; apply andb_true_iff; split; apply Z.leb_le; lia).
  rewrite pad4_eq, !pad2_eq. unfold Date_parse. cbv [String.append list_ascii_of_string].
  change (Ascii.eqb "-" "-") with true. cbn [andb].
  rewrite digits_val4 by lia.
  rewrite !digits_val2 by lia.
  replace (MonthFromTime t + 1 - 1) with (MonthFromTime t) by lia.
  replace ((1 <=? MonthFromTime t + 1) && (MonthFromTime t + 1 <=? 12)
           && (1 <=? DateFromTime t)
           && (DateFromTime t <=? DaysInMonth (YearFromTime t) (MonthFromTime t)))
    with true
    by (symmetry; rewrite !andb_true_iff, !Z.leb_le; lia).
  rewrite MakeDay_of_time. cbn [MakeDate].
  apply year_of_day_range in Hy.
  replace (Day t - DateFromTime t + DateFromTime t) with (Day t) by lia.
  rewrite Z.add_0_r. apply TimeClip_small.
  unfold msPerDay. change (DayFromYear 0) with (-719528) in Hy.
  change (DayFromYear 10000) with 2932897 in Hy. lia.
Qed.

(** *** [split] and the date part of [toISOString] *)

Lemma append_String c a b : String c a ++ b = String c (a ++ b).
Proof. reflexivity. Qed.

Lemma append_Empty b : "" ++ b = b.
Proof. reflexivity. Qed.

Lemma lacks_app sep a b :
  lacks sep (a ++ b) = lacks sep a && lacks sep b.
Proof.
  induction a as [|c a IH]; [reflexivity|].
  rewrite append_String. cbn [lacks]. rewrite IH. apply andb_assoc.
Qed.

Lemma split_head sep a b :
  lacks sep a = true ->
  nth 0 (split sep (a ++ String sep b)) "" = a.
Proof.
  induction a as [|c a IH]; intros H.
  - rewrite append_Empty. cbn [split]. rewrite Ascii.eqb_refl. reflexivity.
  - cbn [lacks] in H. apply andb_true_iff in H as [Hc Ha].
    apply negb_true_iff in Hc. specialize (IH Ha).
    rewrite append_String. cbn [split]. rewrite Hc.
    destruct (split sep (a ++ String sep b)) as [|h l]; cbn in *; congruence.
Qed.

Lemma digit_char_not_T d : Ascii.eqb (digit_char d) "T" = false.
Proof.
  destruct d as [|p|p]; try reflexivity.
  do 4 (try (destruct p as [p|p|]; try reflexivity)).
Qed.

Lemma lacks_pad_loop k : forall n acc,
  lacks "T" acc = true -> lacks "T" (pad_loop k n acc) = true.
Proof.
  induction k as [|k IH]; intros n acc H; [exact H|].
  cbn [pad_loop]. apply IH. cbn [lacks]. rewrite digit_char_not_T. exact H.
Qed.

Lemma lacks_ISODateString t : lacks "T" (ISODateString t) = true.
Proof.
  unfold ISODateString, YearString, ToZeroPaddedDecimalString.
  destruct ((0 <=? YearFromTime t) && (YearFromTime t <=? 9999));
    [|destruct (0 <? YearFromTime t)];
    rewrite !lacks_app; cbn [lacks];
    rewrite !lacks_pad_loop by reflexivity; reflexivity.
Qed.

Lemma toISOString_date_part t :
  bindC (toISOString (Some t))
    (fun iso => Normal (nth 0 (split "T" iso) EmptyString))
  = Normal (ISODateString t).
Proof.
  cbn [toISOString bindC]. f_equal.
  change ("T" ++ ISOTimeString t ++ "Z")
    with (String "T" (ISOTimeString t ++ "Z")).
  apply split_head, lacks_ISODateString.
Qed.

(** *** [getStartDate], step by step *)

Section StartDate.

Variable LocalTZA : Z -> bool -> Z.

Lemma setDate_getDate t :
  setDate LocalTZA (Some t)
    (Number_sub (getDate LocalTZA (Some t)) (GALLERY_DAYS - 1))
  = TimeClip (Some (start_time LocalTZA t)).
Proof.
  unfold setDate, getDate, Number_sub, option_map, start_time.
  cbv zeta. rewrite MakeDay_of_time. cbn [MakeDate]. do 2 f_equal.
  f_equal. unfold TimeWithinDay, Day, msPerDay, GALLERY_DAYS.
  Z.div_mod_to_equations; lia.
Qed.

Lemma getStartDate_parsed endDateString t :
  Date_parse endDateString = Some t ->
  Z.abs (start_time LocalTZA t) <= 8640000000000000 ->
  getStartDate LocalTZA endDateString = Normal (ISODateString (start_time LocalTZA t)).
Proof.
  intros Hp Hb. unfold getStartDate, Date_new. rewrite Hp.
  rewrite setDate_getDate, TimeClip_small by exact Hb.
  apply toISOString_date_part.
Qed.

Lemma getStartDate_unparsed endDateString :
  Date_parse endDateString = None ->
  getStartDate LocalTZA endDateString
  = Throw (RangeError "Invalid time value").
Proof.
  intros Hp. unfold getStartDate, Date_new. rewrite Hp. reflexivity.
Qed.

End StartDate.

(** *** The start date on a host whose offset does not change *)

Lemma start_time_fixed LocalTZA t :
  zone_fixed LocalTZA ->
  start_time LocalTZA t = t - 8 * msPerDay.
Proof.
  intros [c Hc]. unfold start_time, LocalTime, UTC, GALLERY_DAYS.
  cbv zeta. rewrite !Hc. lia.
Qed.

Lemma Day_midnight k : Day (k * msPerDay) = k.
Proof. unfold Day. apply Z.div_mul. discriminate. Qed.

(** On such a host [getStartDate] returns the date eight days before the
    end date, and from 9 January of the year 0000 on that date is again a
    string [Date.parse] reads, as the time value eight days earlier. *)
Lemma getStartDate_fixed_offset LocalTZA endDateString t :
  zone_fixed LocalTZA ->
  Date_parse endDateString = Some t ->
  getStartDate LocalTZA endDateString
  = Normal (ISODateString (t - 8 * msPerDay))
  /\ (DayFromYear 0 + 8 <= Day t ->
      Date_parse (ISODateString (t - 8 * msPerDay))
      = Some (t - 8 * msPerDay)).
Proof.
  intros Hz Hp.
  destruct (Date_parse_inv _ _ Hp) as (k & -> & Hk).
  change (DayFromYear 0) with (-719528) in *.
  change (DayFromYear 10000) with 2932897 in *.
  split.
  - rewrite (getStartDate_parsed LocalTZA _ _ Hp);
      rewrite (start_time_fixed _ _ Hz); [reflexivity|].
    unfold msPerDay. lia.
  - rewrite Day_midnight. intros Hlo.
    replace (k * msPerDay - 8 * msPerDay) with ((k - 8) * msPerDay) by lia.
    rewrite Date_parse_ISODateString.
    + now rewrite Day_midnight.
    + unfold YearFromTime. rewrite Day_midnight.
      apply year_of_day_range.
      change (DayFromYear 0) with (-719528).
      change (DayFromYear 10000) with 2932897. lia.
Qed.

(** *** The start date on any host with a bounded offset *)

Lemma start_time_bounded LocalTZA t :
  zone_bounded LocalTZA ->
  t - 10 * msPerDay < start_time LocalTZA t < t - 6 * msPerDay.
Proof.
  intros Hz. unfold start_time, LocalTime, UTC, GALLERY_DAYS. cbv zeta.
  pose proof (Hz t true) as H1.
  pose proof (Hz (t + LocalTZA t true - (9 - 1) * msPerDay) false) as H2.
  unfold msPerDay in *. lia.
Qed.

(** On such a host [getStartDate] returns on every date [Date.parse]
    reads; from 11 January of the year 0000 on, the result is a date of the
    years 0 to 9999, which [Date.parse] reads back. *)
Lemma getStartDate_total LocalTZA endDateString t :
  zone_bounded LocalTZA ->
  Date_parse endDateString = Some t ->
  getStartDate LocalTZA endDateString
  = Normal (ISODateString (start_time LocalTZA t))
  /\ (DayFromYear 0 + 10 <= Day t ->
      Date_parse (ISODateString (start_time LocalTZA t))
      = Some (Day (start_time LocalTZA t) * msPerDay)).
Proof.
  intros Hz Hp.
  destruct (Date_parse_inv _ _ Hp) as (k & -> & Hk).
  pose proof (start_time_bounded LocalTZA (k * msPerDay) Hz) as Hb.
  change (DayFromYear 0) with (-719528) in *.
  change (DayFromYear 10000) with 2932897 in *.
  split.
  - apply getStartDate_parsed; [exact Hp|]. unfold msPerDay in *. lia.
  - rewrite Day_midnight. intros Hlo.
    apply Date_parse_ISODateString. unfold YearFromTime.
    apply year_of_day_range.
    change (DayFromYear 0) with (-719528).
    change (DayFromYear 10000) with 2932897.
    unfold Day, msPerDay in *. Z.div_mod_to_equations. lia.
Qed.

(** ** Date strings compare as the days they denote *)

Lemma digit_val_inv c v : digit_val c = Some v -> c = digit_char v.
Proof.
  destruct c as [[] [] [] [] [] [] [] []]; cbn; try discriminate;
    intros [= <-]; reflexivity.
Qed.

Lemma digits_val2_inv c1 c2 n :
  digits_val 0 [c1; c2] = Some n ->
  ToZeroPaddedDecimalString n 2 = String c1 (String c2 "").
Proof.
  cbn [digits_val].
  destruct (digit_val c1) as [v1|] eqn:E1; [|discriminate].
  destruct (digit_val c2) as [v2|] eqn:E2; [|discriminate].
  pose proof (digit_val_range _ _ E1). pose proof (digit_val_range _ _ E2).
  apply digit_val_inv in E1, E2. subst c1 c2. intros [= <-].
  rewrite pad2_eq. repeat f_equal; Z.div_mod_to_equations; lia.
Qed.

Lemma digits_val4_inv c1 c2 c3 c4 n :
  digits_val 0 [c1; c2; c3; c4] = Some n ->
  ToZeroPaddedDecimalString n 4
  = String c1 (String c2 (String c3 (String c4 ""))).
Proof.
  cbn [digits_val].
  destruct (digit_val c1) as [v1|] eqn:E1; [|discriminate].
  destruct (digit_val c2) as [v2|] eqn:E2; [|discriminate].
  destruct (digit_val c3) as [v3|] eqn:E3; [|discriminate].
  destruct (digit_val c4) as [v4|] eqn:E4; [|discriminate].
  pose proof (digit_val_range _ _ E1). pose proof (digit_val_range _ _ E2).
  pose proof (digit_val_range _ _ E3). pose proof (digit_val_range _ _ E4).
  apply digit_val_inv in E1, E2, E3, E4. subst c1 c2 c3 c4. intros [= <-].
  rewrite pad4_eq. repeat f_equal; Z.div_mod_to_equations; lia.
Qed.

(** The shape of a string [Date.parse] accepts. *)
Lemma Date_parse_shape s t :
  Date_parse s = Some t ->
  exists y m d k,
    0 <= y <= 9999 /\ 1 <= m <= 12 /\ 1 <= d <= DaysInMonth y (m - 1)
    /\ s = date_only_string y m d
    /\ MakeDay y (m - 1) (Some d) = Some k /\ t = k * msPerDay.
Proof.
  unfold Date_parse. intros H.
  rewrite <- (string_of_list_ascii_of_string s).
  destruct (list_ascii_of_string s) as [|y1 l]; [discriminate|].
  destruct l as [|y2 l]; [discriminate|].
  destruct l as [|y3 l]; [discriminate|].
  destruct l as [|y4 l]; [discriminate|].
  destruct l as [|h1 l]; [discriminate|].
  destruct l as [|m1 l]; [discriminate|].
  destruct l as [|m2 l]; [discriminate|].
  destruct l as [|h2 l]; [discriminate|].
  destruct l as [|d1 l]; [discriminate|].
  destruct l as [|d2 l]; [discriminate|].
  destruct l; [|discriminate].
  destruct (Ascii.eqb h1 "-" && Ascii.eqb h2 "-") eqn:Eh; [|discriminate].
  apply andb_true_iff in Eh as [->%Ascii.eqb_eq ->%Ascii.eqb_eq].
  destruct (digits_val 0 [y1; y2; y3; y4]) as [y|] eqn:Ey; [|discriminate].
  destruct (digits_val 0 [m1; m2]) as [m|] eqn:Em; [|discriminate].
  destruct (digits_val 0 [d1; d2]) as [d|] eqn:Ed; [|discriminate].
  destruct (_ && _) eqn:Ev; [|discriminate].
  pose proof (digits_val_range4 _ _ _ _ _ Ey) as Hy.
  repeat (apply andb_true_iff in Ev as [Ev ?]).
  destruct (MakeDay_valid_range y (m - 1) d) as (k & Hk & Hr); [lia..|].
  rewrite Hk in H. apply TimeClip_Some in H. injection H as <-.
  exists y, m, d, k. repeat split; try lia; try assumption.
  unfold date_only_string.
  rewrite (digits_val4_inv _ _ _ _ _ Ey), (digits_val2_inv _ _ _ Em),
    (digits_val2_inv _ _ _ Ed). reflexivity.
Qed.

Lemma compare_digit_char a b :
  0 <= a <= 9 -> 0 <= b <= 9 ->
  Ascii.compare (digit_char a) (digit_char b) = (a ?= b).
Proof.
  intros Ha Hb.
  assert (a = 0 \/ a = 1 \/ a = 2 \/ a = 3 \/ a = 4 \/ a = 5 \/ a = 6
          \/ a = 7 \/ a = 8 \/ a = 9) as Hca by lia.
  assert (b = 0 \/ b = 1 \/ b = 2 \/ b = 3 \/ b = 4 \/ b = 5 \/ b = 6
          \/ b = 7 \/ b = 8 \/ b = 9) as Hcb by lia.
  repeat (destruct Hca as [-> | Hca]);
    repeat (destruct Hcb as [-> | Hcb]); subst; reflexivity.
Qed.

Ltac lex_step :=
  match goal with
  | |- match ?x ?= ?y with _ => _ end = _ =>
      destruct (Z.compare_spec x y) as [-> | |];
      [ | symmetry; apply Z.compare_lt_iff; lia
        | symmetry; apply Z.compare_gt_iff; lia ]
  end.

(** Two date strings compare as the numbers [YYYYMMDD] they spell. *)
Lemma compare_date_only_string y m d y' m' d' :
  0 <= y <= 9999 -> 0 <= m <= 99 -> 0 <= d <= 99 ->
  0 <= y' <= 9999 -> 0 <= m' <= 99 -> 0 <= d' <= 99 ->
  String.compare (date_only_string y m d) (date_only_string y' m' d')
  = (y * 10000 + m * 100 + d ?= y' * 10000 + m' * 100 + d').
Proof.
  intros Hy Hm Hd Hy' Hm' Hd'. unfold date_only_string.
  rewrite !pad4_eq, !pad2_eq. cbv [String.append]. cbn [String.compare].
  change (Ascii.compare "-" "-") with Eq. cbv iota.
  rewrite !compare_digit_char by (Z.div_mod_to_equations; lia).
  assert (forall n, 0 <= n <= 9999 ->
            n = 1000 * (n / 10 / 10 / 10 mod 10) + 100 * (n / 10 / 10 mod 10)
                + 10 * (n / 10 mod 10) + n mod 10) as E4
      by (intros; Z.div_mod_to_equations; lia).
  assert (forall n, 0 <= n <= 99 -> n = 10 * (n / 10 mod 10) + n mod 10) as E2
      by (intros; Z.div_mod_to_equations; lia).
  assert (forall n, 0 <= n mod 10 <= 9) as R
      by (intros; Z.div_mod_to_equations; lia).
  rewrite (E4 y Hy) at 5. rewrite (E4 y' Hy') at 5.
  rewrite (E2 m Hm) at 3. rewrite (E2 m' Hm') at 3.
  rewrite (E2 d Hd) at 3. rewrite (E2 d' Hd') at 3.
  pose proof (R (y / 10 / 10 / 10)); pose proof (R (y / 10 / 10));
    pose proof (R (y / 10)); pose proof (R y);
    pose proof (R (m / 10)); pose proof (R m);
    pose proof (R (d / 10)); pose proof (R d).
  pose proof (R (y' / 10 / 10 / 10)); pose proof (R (y' / 10 / 10));
    pose proof (R (y' / 10)); pose proof (R y');
    pose proof (R (m' / 10)); pose proof (R m');
    pose proof (R (d' / 10)); pose proof (R d').
  clear E4 E2 R Hy Hm Hd Hy' Hm' Hd'.
  generalize dependent (y / 10 / 10 / 10 mod 10).
  generalize dependent (y / 10 / 10 mod 10).
  generalize dependent (y / 10 mod 10). generalize dependent (y mod 10).
  generalize dependent (m / 10 mod 10). generalize dependent (m mod 10).
  generalize dependent (d / 10 mod 10). generalize dependent (d mod 10).
  generalize dependent (y' / 10 / 10 / 10 mod 10).
  generalize dependent (y' / 10 / 10 mod 10).
  generalize dependent (y' / 10 mod 10). generalize dependent (y' mod 10).
  generalize dependent (m' / 10 mod 10). generalize dependent (m' mod 10).
  generalize dependent (d' / 10 mod 10). generalize dependent (d' mod 10).
  intros. repeat lex_step. symmetry. apply Z.compare_refl.
Qed.

Lemma DaysInMonth_le_31 y m : DaysInMonth y m <= 31.
Proof. unfold DaysInMonth, MonthStart. split_ifs; lia. Qed.

Lemma MonthStart_mono m m' leap :
  0 <= m <= m' -> m' <= 11 -> 0 <= leap <= 1 ->
  MonthStart m leap <= MonthStart m' leap.
Proof. intros. unfold MonthStart. split_ifs; lia. Qed.

Lemma MonthStart_succ y m :
  0 <= m <= 10 ->
  let leap := if DaysInYear y =? 366 then 1 else 0 in
  MonthStart m leap + DaysInMonth y m = MonthStart (m + 1) leap.
Proof.
  intros Hm. cbv zeta. unfold DaysInMonth.
  replace (m =? 11) with false by (symmetry; apply Z.eqb_neq; lia). lia.
Qed.

(** The day number grows with the number [YYYYMMDD]. *)
Lemma MakeDay_mono y m d k y' m' d' k' :
  0 <= y -> 1 <= m <= 12 -> 1 <= d <= DaysInMonth y (m - 1) ->
  0 <= y' -> 1 <= m' <= 12 -> 1 <= d' <= DaysInMonth y' (m' - 1) ->
  MakeDay y (m - 1) (Some d) = Some k ->
  MakeDay y' (m' - 1) (Some d') = Some k' ->
  y * 10000 + m * 100 + d < y' * 10000 + m' * 100 + d' ->
  k < k'.
Proof.
  intros Hy Hm Hd Hy' Hm' Hd'. unfold MakeDay. cbv zeta.
  rewrite (Z.div_small (m - 1) 12), (Z.mod_small (m - 1) 12),
    (Z.div_small (m' - 1) 12), (Z.mod_small (m' - 1) 12), !Z.add_0_r by lia.
  intros [= <-] [= <-] Hlt.
  pose proof (DaysInMonth_le_31 y (m - 1)).
  pose proof (DaysInMonth_le_31 y' (m' - 1)).
  pose proof (MonthStart_DaysInMonth y (m - 1) ltac:(lia)) as (H1 & H2 & H3).
  pose proof (MonthStart_DaysInMonth y' (m' - 1) ltac:(lia)) as (H1' & H2' & H3').
  destruct (Z_lt_le_dec y y') as [Hyy|Hyy].
  - pose proof (DayFromYear_mono (y + 1) y' ltac:(lia)) as Hmono.
    rewrite DayFromYear_succ in Hmono. lia.
  - assert (y = y') as <- by lia.
    destruct (Z_lt_le_dec m m') as [Hmm|Hmm];
      [|assert (m = m') as <- by lia; lia].
    pose proof (MonthStart_succ y (m - 1) ltac:(lia)) as Hs.
    cbv zeta in Hs.
    assert (0 <= (if DaysInYear y =? 366 then 1 else 0) <= 1) as Hleap
      by (destruct (DaysInYear y =? 366); lia).
    pose proof (MonthStart_mono (m - 1 + 1) (m' - 1) _ ltac:(lia) ltac:(lia)
                  Hleap).
    lia.
Qed.

(** On calendar dates in the form [YYYY-MM-DD], the comparison of the
    strings is the comparison of the days. *)
Lemma str_le_dates a b ta tb :
  Date_parse a = Some ta -> Date_parse b = Some tb ->
  (str_le a b = true <-> ta <= tb).
Proof.
  intros Ha Hb.
  destruct (Date_parse_shape _ _ Ha)
    as (y & m & d & k & Hy & Hm & Hd & -> & Hk & ->).
  destruct (Date_parse_shape _ _ Hb)
    as (y' & m' & d' & k' & Hy' & Hm' & Hd' & -> & Hk' & ->).
  pose proof (DaysInMonth_le_31 y (m - 1)).
  pose proof (DaysInMonth_le_31 y' (m' - 1)).
  unfold str_le, String.leb.
  rewrite compare_date_only_string by lia.
  destruct (Z.compare_spec (y * 10000 + m * 100 + d)
              (y' * 10000 + m' * 100 + d')) as [Heq|Hlt|Hgt].
  - assert (y = y' /\ m = m' /\ d = d') as (<- & <- & <-) by lia.
    rewrite Hk in Hk'. injection Hk' as <-. split; [lia|reflexivity].
  - pose proof (MakeDay_mono _ _ _ _ _ _ _ _ (proj1 Hy) Hm Hd (proj1 Hy')
                  Hm' Hd' Hk Hk' Hlt).
    unfold msPerDay. split; [lia|reflexivity].
  - pose proof (MakeDay_mono _ _ _ _ _ _ _ _ (proj1 Hy') Hm' Hd' (proj1 Hy)
                  Hm Hd Hk' Hk Hgt).
    unfold msPerDay. split; [discriminate|lia].
Qed.

(** On a host whose offset does not change, the window is the nine days
    that end on the end date: an entry with a calendar date passes the
    filter exactly when its day is one of the eight days before the end
    date or the end date itself. *)
Lemma window_is_nine_days LocalTZA endDateString startDateString t item ti :
  zone_fixed LocalTZA ->
  Date_parse endDateString = Some t ->
  DayFromYear 0 + 8 <= Day t ->
  getStartDate LocalTZA endDateString = Normal startDateString ->
  Date_parse (date item) = Some ti ->
  (in_window startDateString endDateString item = true
   <-> Day t - 8 <= Day ti <= Day t).
Proof.
  intros Hz Hp Hlo Hs Hi.
  destruct (getStartDate_fixed_offset LocalTZA _ _ Hz Hp) as [Heq Hv].
  rewrite Heq in Hs. injection Hs as <-. specialize (Hv Hlo).
  unfold in_window. rewrite andb_true_iff.
  rewrite (str_le_dates _ _ _ _ Hv Hi), (str_le_dates _ _ _ _ Hi Hp).
  destruct (Date_parse_inv _ _ Hp) as (k & -> & _).
  destruct (Date_parse_inv _ _ Hi) as (ki & -> & _).
  rewrite !Day_midnight. unfold msPerDay. lia.
Qed.

(** ** The page *)

(** *** The store of arrays *)

Lemma alloc_fresh l p :
  fst (alloc l p) <> allAPODData p /\ arrays p !! fst (alloc l p) = None.
Proof.
  unfold alloc. cbn [fst].
  pose proof (is_fresh (dom (arrays p) ∪ {[allAPODData p]})) as Hf.
  split.
  - intros Heq. apply Hf. rewrite Heq. set_solver.
  - apply not_elem_of_dom. set_solver.
Qed.

(** [filteredData_of] changes the store only: at one new reference, which
    ends up holding the sorted selection. *)
Lemma filteredData_of_store startDateString endDateString p :
  exists r A,
    filteredData_of startDateString endDateString p = (r, set_arrays A p)
    /\ r <> allAPODData p
    /\ arrays p !! r = None
    /\ A !! r = Some (sort_list by_date_descending
                        (List.filter (in_window startDateString endDateString)
                           (cache p)))
    /\ (forall r', r' <> r -> A !! r' = arrays p !! r').
Proof.
  unfold filteredData_of, Array_filter, Array_sort.
  destruct (alloc_fresh
              (List.filter (in_window startDateString endDateString)
                 (deref p (allAPODData p))) p) as [Hne Hnew].
  unfold alloc in *. cbn [fst] in Hne, Hnew.
  set (r := fresh (dom (arrays p) ∪ {[allAPODData p]})) in *.
  eexists r, _. split; [reflexivity|].
  split; [exact Hne|]. split; [exact Hnew|]. split.
  - cbn [arrays set_arrays]. rewrite lookup_insert_eq. f_equal.
    unfold deref. cbn [arrays set_arrays]. now rewrite lookup_insert_eq.
  - intros r' Hr'. cbn [arrays set_arrays].
    now rewrite !lookup_insert_ne by congruence.
Qed.

(** *** Sorting *)

Section Sorting.

Variable comparefn : Entry -> Entry -> Number.

Lemma sort_insert_perm x l : Permutation (sort_insert comparefn x l) (x :: l).
Proof.
  induction l as [|y l IH]; cbn [sort_insert]; [reflexivity|].
  destruct (_ <=? 0); [reflexivity|].
  rewrite IH. apply perm_swap.
Qed.

Lemma sort_list_perm l : Permutation (sort_list comparefn l) l.
Proof.
  induction l as [|x l IH]; cbn [sort_list]; [reflexivity|].
  rewrite sort_insert_perm. now constructor.
Qed.

(** Stability: entries that compare as equal among themselves keep their
    order. *)
Variable P : Entry -> bool.
Hypothesis P_ties :
  forall x y, P x = true -> P y = true -> SortCompare comparefn x y = 0.

Lemma filter_sort_insert x l :
  List.filter P (sort_insert comparefn x l) = List.filter P (x :: l).
Proof.
  induction l as [|y l IH]; cbn [sort_insert]; [reflexivity|].
  destruct (SortCompare comparefn x y <=? 0) eqn:Hc; [reflexivity|].
  apply Z.leb_gt in Hc.
  cbn [List.filter] in *. rewrite IH.
  destruct (P x) eqn:Hx, (P y) eqn:Hy; try reflexivity.
  specialize (P_ties x y Hx Hy). lia.
Qed.

Lemma filter_sort_list l :
  List.filter P (sort_list comparefn l) = List.filter P l.
Proof.
  induction l as [|x l IH]; cbn [sort_list]; [reflexivity|].
  rewrite filter_sort_insert. cbn [List.filter]. now rewrite IH.
Qed.

End Sorting.

Lemma not_older_compare a b :
  dated a -> dated b ->
  (SortCompare by_date_descending a b <= 0 <-> not_older a b).
Proof.
  unfold dated, not_older, SortCompare, by_date_descending, Date_new.
  intros Ha Hb.
  destruct (Date_parse (date a)) as [ta|]; [|congruence].
  destruct (Date_parse (date b)) as [tb|]; [|congruence].
  split.
  - intros H. exists ta, tb. repeat split. lia.
  - intros (ta' & tb' & [= <-] & [= <-] & H). lia.
Qed.

Lemma not_older_trans a b c : not_older a b -> not_older b c -> not_older a c.
Proof.
  intros (ta & tb & Ha & Hb & H1) (tb' & tc & Hb' & Hc & H2).
  exists ta, tc. repeat split; try assumption.
  rewrite Hb in Hb'. injection Hb' as <-. lia.
Qed.

Lemma not_older_total a b : dated a -> dated b -> not_older a b \/ not_older b a.
Proof.
  unfold dated, not_older. intros Ha Hb.
  destruct (Date_parse (date a)) as [ta|]; [|congruence].
  destruct (Date_parse (date b)) as [tb|]; [|congruence].
  destruct (Z_le_gt_dec tb ta); [left|right]; eexists _, _;
    repeat split; lia.
Qed.

Lemma sort_insert_sorted x l :
  dated x -> Forall dated l ->
  StronglySorted not_older l ->
  StronglySorted not_older (sort_insert by_date_descending x l).
Proof.
  intros Hx Hl Hs. induction Hs as [|y l Hs IH Hy]; cbn [sort_insert].
  - repeat constructor.
  - apply Forall_cons_iff in Hl as [Hdy Hl].
    destruct (SortCompare by_date_descending x y <=? 0) eqn:Hc.
    + apply Z.leb_le, not_older_compare in Hc; try assumption.
      constructor; [now constructor|].
      constructor; [exact Hc|].
      eapply List.Forall_impl; [|exact Hy].
      intros c Hyc. eapply not_older_trans; eassumption.
    + apply Z.leb_gt in Hc.
      assert (not_older y x) as Hyx.
      { destruct (not_older_total x y Hx Hdy) as [H|H]; [|exact H].
        apply not_older_compare in H; try assumption. lia. }
      constructor; [now apply IH|].
      eapply Permutation_Forall;
        [symmetry; apply sort_insert_perm|].
      now constructor.
Qed.

Lemma sort_list_sorted l :
  Forall dated l -> StronglySorted not_older (sort_list by_date_descending l).
Proof.
  induction l as [|x l IH]; intros Hl; cbn [sort_list]; [constructor|].
  apply Forall_cons_iff in Hl as [Hx Hl].
  apply sort_insert_sorted; [exact Hx| |now apply IH].
  eapply Permutation_Forall; [symmetry; apply sort_list_perm|exact Hl].
Qed.

Lemma same_date_ties d x y :
  String.eqb (date x) d = true -> String.eqb (date y) d = true ->
  SortCompare by_date_descending x y = 0.
Proof.
  intros Hx%String.eqb_eq Hy%String.eqb_eq.
  unfold SortCompare, by_date_descending, Date_new. rewrite Hx, Hy.
  destruct (Date_parse d); [lia|reflexivity].
Qed.

(** *** Rendering *)

Lemma forEach_tiles data : forall index q,
  forEach (fun item index q => appendChild_gallery (itemElement item index) q)
    data index q
  = set_gallery_children (galleryContainer_children q ++ tiles index data)%list q.
Proof.
  induction data as [|item rest IH]; intros index q; cbn [forEach tiles].
  - rewrite app_nil_r. destruct q; reflexivity.
  - rewrite IH. unfold appendChild_gallery, set_gallery_children.
    cbn. now rewrite <- app_assoc.
Qed.

Lemma renderGallery_eq data p :
  renderGallery data p
  = updateUIState false None (set_gallery_children (tiles 0 (deref p data)) p).
Proof. unfold renderGallery. rewrite forEach_tiles. reflexivity. Qed.

Lemma length_tiles data : forall index, length (tiles index data) = length data.
Proof.
  induction data as [|item rest IH]; intros index; cbn [tiles length];
    [reflexivity|]. now rewrite IH.
Qed.

Lemma tiles_inv n data : forall index,
  In n (tiles index data) ->
  exists i item, n = itemElement item i /\ In item data.
Proof.
  induction data as [|item rest IH]; intros index; cbn [tiles In]; [tauto|].
  intros [<- | H].
  - exists index, item. auto.
  - destruct (IH _ H) as (i & it & -> & Hin). exists i, it. auto.
Qed.

(** *** One call of [filterAndRenderGallery] *)

(** The page the call works on once the window is known: loading shown,
    gallery emptied, the store extended by a new array [filteredData] that
    holds the selection. *)
Lemma filterAndRenderGallery_run LocalTZA endDateString startDateString p :
  getStartDate LocalTZA endDateString = Normal startDateString ->
  let data := selection startDateString endDateString p in
  exists filteredData A,
    filteredData <> allAPODData p
    /\ arrays p !! filteredData = None
    /\ A !! filteredData = Some data
    /\ A !! allAPODData p = arrays p !! allAPODData p
    /\ filterAndRenderGallery LocalTZA endDateString p
       = (Normal tt,
          let q :=
            set_arrays A
              (set_error_hidden true
                 (set_gallery_children [] (updateUIState true None p))) in
          if Z.of_nat (length data) <? GALLERY_DAYS then
            updateUIState false (Some (insufficientMessage (length data))) q
          else updateUIState false None (set_gallery_children (tiles 0 data) q)).
Proof.
  intros Hs data. unfold filterAndRenderGallery. rewrite Hs.
  set (p0 := set_error_hidden true _).
  destruct (filteredData_of_store startDateString endDateString p0)
    as (r & A & Heq & Hne & Hnew & Hr & Hother).
  exists r, A. split; [exact Hne|]. split; [exact Hnew|].
  split; [exact Hr|]. split; [apply Hother; auto|].
  rewrite Heq.
  assert (deref (set_arrays A p0) r = data) as Hd.
  { unfold deref. cbn [arrays set_arrays]. rewrite Hr. reflexivity. }
  rewrite Hd. cbv zeta.
  destruct (Z.of_nat (length data) <? GALLERY_DAYS); [reflexivity|].
  rewrite renderGallery_eq, Hd. reflexivity.
Qed.

(** ** The claims *)

Lemma well_dated_dated l : forallb well_dated l = true -> Forall dated l.
Proof.
  intros H. apply List.Forall_forall. intros x Hx.
  apply (proj1 (forallb_forall _ _) H) in Hx.
  unfold well_dated, dated in *. destruct (Date_parse (date x)); congruence.
Qed.



Lemma StronglySorted_weaken (R R' : Entry -> Entry -> Prop) l :
  (forall a b, R a b -> R' a b) -> StronglySorted R l -> StronglySorted R' l.
Proof.
  intros HR Hs. induction Hs as [|x l Hs IH Hx]; constructor; [exact IH|].
  eapply List.Forall_impl; [|exact Hx]. intros b. apply HR.
Qed.

Lemma not_older_str_le a b :
  not_older a b -> str_le (date b) (date a) = true.
Proof.
  intros (ta & tb & Ha & Hb & Hle). now apply (str_le_dates _ _ _ _ Hb Ha).
Qed.

Lemma selection_perm startDateString endDateString p :
  Permutation (selection startDateString endDateString p)
    (List.filter (in_window startDateString endDateString) (cache p)).
Proof. apply sort_list_perm. Qed.

Lemma selection_In startDateString endDateString p item :
  In item (selection startDateString endDateString p)
  <-> In item (cache p)
      /\ str_le startDateString (date item) = true
      /\ str_le (date item) endDateString = true.
Proof.
  split.
  - intros H. eapply Permutation_in in H; [|apply selection_perm].
    apply filter_In in H as [Hin Hw].
    apply andb_true_iff in Hw. tauto.
  - intros (Hin & H1 & H2).
    eapply Permutation_in; [symmetry; apply selection_perm|].
    apply filter_In. split; [exact Hin|].
    unfold in_window. now rewrite H1, H2.
Qed.




(** C3.  With the start date computed from the end date, the array
    [filterAndRenderGallery] builds by filtering and sorting is a new array
    that holds exactly the entries of the cache whose date is, as a string,
    at least the start date and at most the end date: the same entries
    with the same multiplicity. *)
Theorem filter_selects_window LocalTZA endDateString startDateString p :
  getStartDate LocalTZA endDateString = Normal startDateString ->
  let p' := snd (filterAndRenderGallery LocalTZA endDateString p) in
  exists filteredData,
    arrays p !! filteredData = None
    /\ is_Some (arrays p' !! filteredData)
    /\ Permutation (deref p' filteredData)
         (List.filter (in_window startDateString endDateString) (cache p))
    /\ forall item,
        In item (deref p' filteredData)
        <-> In item (cache p)
            /\ str_le startDateString (date item) = true
            /\ str_le (date item) endDateString = true.
Proof.
  intros Hs p'. subst p'.
  destruct (filterAndRenderGallery_run LocalTZA _ _ p Hs)
    as (r & A & _ & Hnew & Hr & _ & Heq).
  exists r. split; [exact Hnew|].
  rewrite Heq. cbv zeta.
  assert (forall q : Page, arrays q = A ->
            deref q r = selection startDateString endDateString p) as Hd.
  { intros q Hq. unfold deref. now rewrite Hq, Hr. }
  destruct (_ <? _); cbn [snd].
  - rewrite Hd by reflexivity. split; [cbn; rewrite Hr; eauto|].
    split; [apply selection_perm|]. intros item. apply selection_In.
  - rewrite Hd by reflexivity. split; [cbn; rewrite Hr; eauto|].
    split; [apply selection_perm|]. intros item. apply selection_In.
Qed.

(** C4.  On a cache whose entries carry calendar dates, the array the
    filter step produces is sorted from the most recent date to the
    oldest, by the days the dates denote and, which is the same, by the
    date strings; and the entries of any one date stand in the order they
    have in the cache. *)
Theorem filter_sorted_stable startDateString endDateString p :
  forallb well_dated (cache p) = true ->
  let r := filteredData_of startDateString endDateString p in
  StronglySorted not_older (deref (snd r) (fst r))
  /\ StronglySorted (fun a b => str_le (date b) (date a) = true)
       (deref (snd r) (fst r))
  /\ forall d,
      dated_on d (deref (snd r) (fst r))
      = dated_on d
          (List.filter (in_window startDateString endDateString) (cache p)).
Proof.
  intros Hd r. subst r.
  destruct (filteredData_of_store startDateString endDateString p)
    as (r & A & Heq & _ & _ & Hr & _).
  rewrite Heq. cbn [fst snd].
  assert (deref (set_arrays A p) r
          = selection startDateString endDateString p) as ->.
  { unfold deref. cbn [arrays set_arrays]. now rewrite Hr. }
  assert (StronglySorted not_older
            (selection startDateString endDateString p)) as Hsorted.
  { apply sort_list_sorted. apply well_dated_dated in Hd.
    apply List.Forall_forall. intros x Hx. apply filter_In in Hx as [Hx _].
    revert x Hx. now apply List.Forall_forall. }
  split; [exact Hsorted|]. split.
  - eapply StronglySorted_weaken; [|exact Hsorted].
    intros a b. apply not_older_str_le.
  - intros d. unfold dated_on, selection.
    apply filter_sort_list. intros x y. apply same_date_ties.
Qed.

(** C5.  When the window is known and fewer than nine entries of the cache
    fall inside it, the call returns normally with an empty gallery, the
    gallery hidden, and the error element shown with the message that
    gives the number of entries found. *)
Theorem insufficient_data_reports_count
  LocalTZA endDateString startDateString p :
  getStartDate LocalTZA endDateString = Normal startDateString ->
  (length (selection startDateString endDateString p) < 9)%nat ->
  let found := length (selection startDateString endDateString p) in
  let r := filterAndRenderGallery LocalTZA endDateString p in
  fst r = Normal tt
  /\ galleryContainer_children (snd r) = []
  /\ galleryContainer_hidden (snd r) = true
  /\ errorElement_hidden (snd r) = false
  /\ errorText_textContent (snd r)
     = "Only found " ++ nat_to_string found
       ++ " entries. The selected date range might be too far in the past or data is missing."
  /\ loadingElement_hidden (snd r) = true.
Proof.
  intros Hs Hlen found r.
  destruct (filterAndRenderGallery_run LocalTZA _ _ p Hs)
    as (r0 & A & _ & _ & _ & _ & Heq).
  subst r. rewrite Heq. cbv zeta. fold found.
  replace (Z.of_nat found <? GALLERY_DAYS) with true
    by (symmetry; apply Z.ltb_lt; unfold GALLERY_DAYS; subst found; lia).
  cbn [fst snd]. repeat split.
Qed.

(** C9.  A call of [filterAndRenderGallery], whatever its end date and
    however it ends, leaves [allAPODData] referring to the same array with
    the same entries in the same order. *)
Theorem filter_keeps_cache LocalTZA endDateString p :
  let p' := snd (filterAndRenderGallery LocalTZA endDateString p) in
  allAPODData p' = allAPODData p
  /\ arrays p' !! allAPODData p' = arrays p !! allAPODData p
  /\ cache p' = cache p.
Proof.
  cbv zeta.
  destruct (getStartDate LocalTZA endDateString) as [s|e] eqn:Hs.
  - destruct (filterAndRenderGallery_run LocalTZA _ _ p Hs)
      as (r0 & A & _ & _ & _ & HA & Heq).
    rewrite Heq. cbv zeta. unfold cache, deref.
    destruct (_ <? _); cbn; rewrite HA; auto.
  - unfold filterAndRenderGallery. rewrite Hs. cbn. auto.
Qed.

(** C2, on the input where the script misses it.  On a host on United
    States Eastern time, for the end date 5 November 2024, two days after
    the clocks went back, [getStartDate] returns 27 October, nine days
    before, where eight days before is 28 October, which is what it returns
    on a UTC host; an entry of 27 October then passes the filter. *)
Theorem start_date_after_clock_change :
  getStartDate Eastern_2024 "2024-11-05" = Normal "2024-10-27"
  /\ getStartDate UTC_zone "2024-11-05" = Normal "2024-10-28"
  /\ (exists t,
        Date_parse "2024-11-05" = Some t
        /\ Date_parse "2024-10-28" = Some (t - 8 * msPerDay)
        /\ Date_parse "2024-10-27" = Some (t - 9 * msPerDay))
  /\ in_window "2024-10-27" "2024-11-05" (picture "2024-10-27") = true.
Proof.
  split; [vm_compute; reflexivity|]. split; [vm_compute; reflexivity|].
  split; [|vm_compute; reflexivity].
  eexists. split; [vm_compute; reflexivity|].
  split; vm_compute; reflexivity.
Qed.

(** C6 (as amended).  The preview of the tile of an entry: for a video
    whose [thumbnail_url] is a string that is neither empty nor the
    script's own marker ["placeholder"], the thumbnail with the play
    overlay; for a video whose [thumbnail_url] is absent or empty, the
    textual placeholder; for an entry that is not a video, the image at
    [url]. *)
Theorem tile_preview_dispatch item index :
  (media_type item = "video" ->
   forall u, thumbnail_url item = Some u -> u <> "" -> u <> "placeholder" ->
   itemElement item index
   = GalleryItem index
       (itemHTML (videoThumbnailHTML u (title item)) (title item) (date item))
       item)
  /\ (media_type item = "video" ->
      thumbnail_url item = None \/ thumbnail_url item = Some "" ->
      itemElement item index
      = GalleryItem index
          (itemHTML videoPlaceholderHTML (title item) (date item)) item)
  /\ (media_type item <> "video" ->
      itemElement item index
      = GalleryItem index
          (itemHTML (imageHTML (url item) (title item)) (title item)
             (date item)) item).
Proof.
  unfold itemElement, mediaHTML_of. repeat split.
  - intros Hv u Hu Hne Hnp. rewrite Hv, Hu. cbn [js_or].
    apply String.eqb_neq in Hne, Hnp.
    change (String.eqb "video" "video") with true. cbv iota.
    now rewrite Hne, Hnp.
  - intros Hv [Hu | Hu]; rewrite Hv, Hu; reflexivity.
  - intros Hv. apply String.eqb_neq in Hv. now rewrite Hv.
Qed.

(** C7 (as amended).  [openModal] shows the entry's title, date and
    explanation and makes the modal visible; the media container then
    holds, for a video, one frame on the entry's [url]; otherwise one
    image, on [hdurl] when that is a non-empty string and on [url] when
    [hdurl] is absent or empty. *)
Theorem modal_shows_entry item p :
  let p' := openModal item p in
  modalTitle_textContent p' = title item
  /\ modalDate_textContent p' = date item
  /\ modalExplanation_textContent p' = explanation item
  /\ modalElement_visible p' = true
  /\ (media_type item = "video" ->
      modalMediaContainer_children p'
      = [VideoContainer (iframeHTML (url item))])
  /\ (media_type item <> "video" ->
      forall h, hdurl item = Some h -> h <> "" ->
      modalMediaContainer_children p' = [Img h (title item)])
  /\ (media_type item <> "video" ->
      hdurl item = None \/ hdurl item = Some "" ->
      modalMediaContainer_children p' = [Img (url item) (title item)]).
Proof.
  cbv zeta. unfold openModal.
  destruct (String.eqb (media_type item) "video") eqn:Hm.
  - apply String.eqb_eq in Hm. repeat split; try congruence.
  - apply String.eqb_neq in Hm. repeat split; try congruence.
    + intros _ h Hh Hne. cbn. rewrite Hh. cbn [js_or].
      apply String.eqb_neq in Hne. now rewrite Hne.
    + intros _ [Hh | Hh]; cbn; rewrite Hh; reflexivity.
Qed.

(** C8.  Each way of dismissing the detail view (the close control, a
    click on the modal outside its content, Escape while the modal is
    visible) runs [closeModal]: afterwards the media container has no
    child and the modal is not visible, whatever was shown before. *)
Theorem dismissal_clears_media LocalTZA ev p :
  dismissal ev p = true ->
  let r := dispatch LocalTZA ev p in
  fst r = Normal tt
  /\ modalMediaContainer_children (snd r) = []
  /\ modalElement_visible (snd r) = false.
Proof.
  intros Hd. destruct ev as [d|i|[|]|key|]; cbn in Hd; try discriminate;
    cbn [dispatch]; try rewrite Hd; cbn; auto.
Qed.

Lemma getStartDate_from_value LocalTZA t :
  Z.abs (start_time LocalTZA t) <= 8640000000000000 ->
  getStartDate_from LocalTZA (Some t)
  = Normal (ISODateString (start_time LocalTZA t)).
Proof.
  intros Hb. unfold getStartDate_from.
  rewrite setDate_getDate, TimeClip_small by exact Hb.
  apply toISOString_date_part.
Qed.

Lemma getStartDate_from_early LocalTZA t :
  start_time LocalTZA t < -8640000000000000 ->
  getStartDate_from LocalTZA (Some t)
  = Throw (RangeError "Invalid time value").
Proof.
  intros Hb. unfold getStartDate_from. rewrite setDate_getDate.
  unfold TimeClip.
  replace (8640000000000000 <? Z.abs (start_time LocalTZA t)) with true
    by (symmetry; apply Z.ltb_lt; lia).
  reflexivity.
Qed.

(** C10 (as amended).  On a host whose zone offset stays below a day, let
    [t] be the time value that [new Date(endDateString)] holds.  Then
    [getStartDate] returns the UTC date of the start instant as
    [toISOString] prints it, unless the start instant falls before the
    earliest time value of a Date, where it throws; the start instant does
    not fall there when [t] is ten days or more after the earliest time
    value.  The string returned is a calendar date in the form YYYY-MM-DD
    whenever the start instant falls in the years 0000 to 9999, which it
    does for every end date from the eleventh day of the year 0000 to the
    end of the year 9999; and the call returns for every end date string
    in the form YYYY-MM-DD.  A Date that holds no time value makes
    [getStartDate] throw a [RangeError], and the input ["not-a-date"] gives
    such a Date. *)
Theorem getStartDate_precondition LocalTZA t :
  zone_bounded LocalTZA ->
  Z.abs t <= 8640000000000000 ->
  let start := start_time LocalTZA t in
  (-8640000000000000 <= start ->
   getStartDate_from LocalTZA (Some t) = Normal (ISODateString start))
  /\ (start < -8640000000000000 ->
      getStartDate_from LocalTZA (Some t)
      = Throw (RangeError "Invalid time value"))
  /\ (-8640000000000000 + 10 * msPerDay <= t -> -8640000000000000 <= start)
  /\ (0 <= YearFromTime start <= 9999 ->
      Date_parse (ISODateString start) = Some (Day start * msPerDay))
  /\ (DayFromYear 0 + 10 <= Day t < DayFromYear 10000 ->
      0 <= YearFromTime start <= 9999)
  /\ (forall endDateString,
        Date_parse endDateString = Some t ->
        getStartDate LocalTZA endDateString = Normal (ISODateString start))
  /\ getStartDate_from LocalTZA None
     = Throw (RangeError "Invalid time value")
  /\ Date_new "not-a-date" = None
  /\ getStartDate LocalTZA "not-a-date"
     = Throw (RangeError "Invalid time value").
Proof.
  intros Hz Ht start.
  pose proof (start_time_bounded LocalTZA t Hz) as Hb. fold start in Hb.
  split.
  { intros Hlo. apply getStartDate_from_value. fold start.
    unfold msPerDay in Hb. lia. }
  split; [exact (getStartDate_from_early LocalTZA t)|].
  split; [unfold msPerDay in *; lia|].
  split; [exact (Date_parse_ISODateString start)|].
  split.
  - intros Hday. unfold YearFromTime. apply year_of_day_range.
    change (DayFromYear 0) with (-719528) in *.
    change (DayFromYear 10000) with 2932897 in *.
    unfold Day, msPerDay in *. Z.div_mod_to_equations. lia.
  - split; [|repeat split].
    intros endDateString Hp.
    exact (proj1 (getStartDate_total LocalTZA endDateString t Hz Hp)).
Qed.

(** ** Inputs on which a claim fails as it is worded *)


(** C6 as worded fails: a video whose [thumbnail_url] is the string
    ["placeholder"] gets the textual placeholder, not that thumbnail. *)
Lemma placeholder_thumbnail_not_shown :
  ~ (forall item index u,
        media_type item = "video" -> thumbnail_url item = Some u ->
        itemElement item index
        = GalleryItem index
            (itemHTML (videoThumbnailHTML u (title item)) (title item)
               (date item)) item).
Proof.
  intros H.
  specialize (H (film "2024-01-05" (Some "placeholder")) 0%nat "placeholder"
                eq_refl eq_refl).
  vm_compute in H. discriminate H.
Qed.

(** C7 as worded fails: an image whose [hdurl] is present but empty is
    shown at its [url]. *)
Lemma empty_hdurl_not_shown :
  ~ (forall item p h,
        media_type item <> "video" -> hdurl item = Some h ->
        modalMediaContainer_children (openModal item p)
        = [Img h (title item)]).
Proof.
  intros H.
  specialize (H (mkEntry "2024-01-05" "Sky" "Text" "image"
                   "https://apod.example/a.jpg" (Some "") None)
                initial_page "").
  cbn in H. specialize (H ltac:(discriminate) eq_refl). discriminate H.
Qed.

(** C10 as worded fails, for two reasons.  The string [0000-01-01] is read
    as a calendar date, and the start date computed from it, in the year
    before, is printed with a sign and six digits.  And from the earliest
    time value of a Date, which is what the calendar date of 20 April of
    the year -271821 is read as, the start instant is no time value and
    [getStartDate] throws. *)
Lemma start_out_of_range :
  (Date_parse "0000-01-01" = Some (DayFromYear 0 * msPerDay)
   /\ getStartDate UTC_zone "0000-01-01" = Normal "-000001-12-24")
  /\ (MakeDate (MakeDay (-271821) 3 (Some 20)) 0 = Some (-8640000000000000)
      /\ TimeClip (Some (-8640000000000000)) = Some (-8640000000000000)
      /\ getStartDate_from UTC_zone (Some (-8640000000000000))
         = Throw (RangeError "Invalid time value")).
Proof.
  split; [split|split; [|split]]; vm_compute; reflexivity.
Qed.

(** ** The properties at concrete inputs *)


Lemma filter_selects_window_witness :
  getStartDate UTC_zone "2024-01-09" = Normal "2024-01-01"
  /\ exists filteredData,
      Permutation
        (deref (snd (filterAndRenderGallery UTC_zone "2024-01-09"
                       (page_with january))) filteredData)
        (List.filter (in_window "2024-01-01" "2024-01-09")
           (cache (page_with january))).
Proof.
  assert (getStartDate UTC_zone "2024-01-09" = Normal "2024-01-01") as H1
    by (vm_compute; reflexivity).
  split; [exact H1|].
  destruct (filter_selects_window UTC_zone "2024-01-09" "2024-01-01"
              (page_with january) H1) as (r & _ & _ & Hperm & _).
  exists r. exact Hperm.
Defined.

Lemma filter_sorted_stable_witness :
  forallb well_dated (cache (page_with january_and_film)) = true
  /\ StronglySorted not_older
       (deref (snd (filteredData_of "2024-01-01" "2024-01-09"
                      (page_with january_and_film)))
          (fst (filteredData_of "2024-01-01" "2024-01-09"
                  (page_with january_and_film)))).
Proof.
  assert (forallb well_dated (cache (page_with january_and_film)) = true)
    as H1 by (vm_compute; reflexivity).
  split; [exact H1|].
  exact (proj1 (filter_sorted_stable "2024-01-01" "2024-01-09"
                  (page_with january_and_film) H1)).
Defined.

Lemma insufficient_data_reports_count_witness :
  getStartDate UTC_zone "2024-01-05" = Normal "2023-12-28"
  /\ (length (selection "2023-12-28" "2024-01-05" (page_with january)) < 9)%nat
  /\ errorText_textContent
       (snd (filterAndRenderGallery UTC_zone "2024-01-05" (page_with january)))
     = "Only found 5 entries. The selected date range might be too far in the past or data is missing.".
Proof.
  assert (getStartDate UTC_zone "2024-01-05" = Normal "2023-12-28") as H1
    by (vm_compute; reflexivity).
  assert (length (selection "2023-12-28" "2024-01-05" (page_with january)) < 9)%nat
    as H2 by (vm_compute; lia).
  split; [exact H1|]. split; [exact H2|].
  destruct (insufficient_data_reports_count UTC_zone "2024-01-05" "2023-12-28"
              (page_with january) H1 H2) as (_ & _ & _ & _ & Ht & _).
  rewrite Ht. vm_compute. reflexivity.
Defined.

Lemma tile_preview_dispatch_witness :
  let thumb := "https://img.example/t.jpg" in
  itemElement (film "2024-01-05" (Some thumb)) 0
  = GalleryItem 0
      (itemHTML (videoThumbnailHTML thumb "Film of 2024-01-05")
         "Film of 2024-01-05" "2024-01-05")
      (film "2024-01-05" (Some thumb))
  /\ itemElement (film "2024-01-05" None) 1
     = GalleryItem 1
         (itemHTML videoPlaceholderHTML "Film of 2024-01-05" "2024-01-05")
         (film "2024-01-05" None)
  /\ itemElement (picture "2024-01-05") 2
     = GalleryItem 2
         (itemHTML
            (imageHTML "https://apod.example/2024-01-05.jpg"
               "Sky on 2024-01-05")
            "Sky on 2024-01-05" "2024-01-05")
         (picture "2024-01-05").
Proof.
  cbv zeta. split; [|split].
  - apply (proj1 (tile_preview_dispatch
                    (film "2024-01-05" (Some "https://img.example/t.jpg")) 0)
             eq_refl "https://img.example/t.jpg" eq_refl);
      discriminate.
  - apply (proj1 (proj2 (tile_preview_dispatch (film "2024-01-05" None) 1))
             eq_refl). left. reflexivity.
  - apply (proj2 (proj2 (tile_preview_dispatch (picture "2024-01-05") 2))).
    discriminate.
Defined.

Lemma modal_shows_entry_witness :
  modalMediaContainer_children
    (openModal (film "2024-01-05" None) initial_page)
  = [VideoContainer (iframeHTML "https://video.example/embed/2024-01-05")]
  /\ modalMediaContainer_children
       (openModal (picture "2024-01-05") initial_page)
     = [Img "https://apod.example/2024-01-05_hd.jpg" "Sky on 2024-01-05"].
Proof.
  split.
  - apply (proj1 (proj2 (proj2 (proj2 (proj2
             (modal_shows_entry (film "2024-01-05" None) initial_page)))))).
    reflexivity.
  - apply (proj1 (proj2 (proj2 (proj2 (proj2 (proj2
             (modal_shows_entry (picture "2024-01-05") initial_page)))))))
      with (h := "https://apod.example/2024-01-05_hd.jpg");
      [discriminate | reflexivity | discriminate].
Defined.

Lemma dismissal_clears_media_witness :
  let shown := openModal (film "2024-01-05" None) initial_page in
  dismissal (KeyDown "Escape") shown = true
  /\ modalMediaContainer_children shown <> []
  /\ modalMediaContainer_children
       (snd (dispatch UTC_zone (KeyDown "Escape") shown)) = [].
Proof.
  cbv zeta.
  assert (dismissal (KeyDown "Escape")
            (openModal (film "2024-01-05" None) initial_page) = true) as H1
    by reflexivity.
  split; [exact H1|]. split; [discriminate|].
  exact (proj1 (proj2 (dismissal_clears_media UTC_zone (KeyDown "Escape")
                         (openModal (film "2024-01-05" None) initial_page)
                         H1))).
Defined.

Lemma getStartDate_precondition_witness :
  zone_bounded Eastern_2024
  /\ Z.abs 1730764800000 <= 8640000000000000
  /\ getStartDate Eastern_2024 "2024-11-05"
     = Normal (ISODateString (start_time Eastern_2024 1730764800000)).
Proof.
  assert (zone_bounded Eastern_2024) as H1.
  { intros t isUTC. unfold Eastern_2024. cbv zeta.
    destruct isUTC; destruct (_ && _); reflexivity. }
  assert (Z.abs 1730764800000 <= 8640000000000000) as H2 by lia.
  split; [exact H1|]. split; [exact H2|].
  apply (getStartDate_precondition Eastern_2024 1730764800000 H1 H2).
  vm_compute. reflexivity.
Defined.

(** * Further properties of the script *)

(** ** Today's date *)

Lemma getTodayDate_eq now : getTodayDate now = Normal (ISODateString now).
Proof. apply toISOString_date_part. Qed.

Lemma getTodayDate_parse now :
  DayFromYear 0 <= Day now < DayFromYear 10000 ->
  Date_parse (ISODateString now) = Some (Day now * msPerDay).
Proof.
  intros Hr. apply Date_parse_ISODateString. now apply year_of_day_range.
Qed.

(** [getTodayDate] gives the calendar date of the clock reading in UTC: a
    string [Date.parse] reads as the midnight that starts that day, so a
    string that, as a date, is not after the clock reading and less than a
    day before it. *)
Theorem getTodayDate_utc_day now :
  DayFromYear 0 <= Day now < DayFromYear 10000 ->
  exists today t,
    getTodayDate now = Normal today
    /\ Date_parse today = Some t
    /\ t <= now < t + msPerDay.
Proof.
  intros Hr. exists (ISODateString now), (Day now * msPerDay).
  split; [apply getTodayDate_eq|]. split; [now apply getTodayDate_parse|].
  unfold Day, msPerDay. Z.div_mod_to_equations. lia.
Qed.

(** The window that ends today can always be computed: on a host whose
    zone offset stays below a day, [getStartDate] returns a calendar date
    for what [getTodayDate] returns. *)
Theorem start_date_of_today LocalTZA now :
  zone_bounded LocalTZA ->
  DayFromYear 0 + 10 <= Day now < DayFromYear 10000 ->
  exists today startDateString,
    getTodayDate now = Normal today
    /\ getStartDate LocalTZA today = Normal startDateString
    /\ Date_parse startDateString <> None.
Proof.
  intros Hz Hr.
  pose proof (getTodayDate_parse now ltac:(lia)) as Hp.
  destruct (getStartDate_total LocalTZA _ _ Hz Hp) as [Hs Hv].
  exists (ISODateString now),
    (ISODateString (start_time LocalTZA (Day now * msPerDay))).
  split; [apply getTodayDate_eq|]. split; [exact Hs|].
  rewrite Hv; [discriminate|]. rewrite Day_midnight. lia.
Qed.

(** ** One call of [filterAndRenderGallery], in full *)

Lemma filterAndRenderGallery_view LocalTZA endDateString p :
  let r := filterAndRenderGallery LocalTZA endDateString p in
  cache (snd r) = cache p
  /\ allAPODData (snd r) = allAPODData p
  /\ modal_view (snd r) = modal_view p
  /\ match getStartDate LocalTZA endDateString with
     | Throw e =>
         fst r = Throw e
         /\ gallery_view (snd r)
            = (false, true, true, errorText_textContent p, [])
     | Normal startDateString =>
         let data := selection startDateString endDateString p in
         fst r = Normal tt
         /\ gallery_view (snd r)
            = if Z.of_nat (length data) <? GALLERY_DAYS
              then (true, true, false, insufficientMessage (length data), [])
              else (true, false, true, errorText_textContent p, tiles 0 data)
     end.
Proof.
  cbv zeta.
  destruct (getStartDate LocalTZA endDateString) as [s|e] eqn:Hs.
  - destruct (filterAndRenderGallery_run LocalTZA _ _ p Hs)
      as (r0 & A & _ & _ & _ & HA & Heq).
    rewrite Heq. cbv zeta. unfold cache, deref.
    destruct (_ <? _); cbn; rewrite HA; auto.
  - unfold filterAndRenderGallery. rewrite Hs. cbn. auto.
Qed.

(** With the end date string ["not-a-date"], which gives a Date without a
    time value, the call ends, on every page and in every zone, in the
    RangeError of [getStartDate] after it has switched to the loading
    state: the indicator stays on, the gallery is hidden and empty, no
    error message is shown, and the modal and the cache are as before. *)
Theorem invalid_date_leaves_loading LocalTZA p :
  let r := filterAndRenderGallery LocalTZA "not-a-date" p in
  fst r = Throw (RangeError "Invalid time value")
  /\ gallery_view (snd r) = (false, true, true, errorText_textContent p, [])
  /\ modal_view (snd r) = modal_view p
  /\ cache (snd r) = cache p.
Proof.
  intros r. subst r.
  pose proof (filterAndRenderGallery_view LocalTZA "not-a-date" p)
    as (Hc & _ & Hm & Hv).
  assert (getStartDate LocalTZA "not-a-date"
          = Throw (RangeError "Invalid time value")) as Hs
    by (apply getStartDate_unparsed; reflexivity).
  rewrite Hs in Hv. tauto.
Qed.

(** On an empty cache, as before the data is loaded, every date for which
    the window can be computed ends in the message for zero entries. *)
Theorem empty_cache_reports_zero LocalTZA endDateString startDateString p :
  cache p = [] ->
  getStartDate LocalTZA endDateString = Normal startDateString ->
  let r := filterAndRenderGallery LocalTZA endDateString p in
  fst r = Normal tt
  /\ gallery_view (snd r)
     = (true, true, false,
        "Only found 0 entries. The selected date range might be too far in the past or data is missing.",
        []).
Proof.
  intros Hc Hs r. subst r.
  pose proof (filterAndRenderGallery_view LocalTZA endDateString p)
    as (_ & _ & _ & Hv).
  rewrite Hs in Hv. unfold selection in Hv. rewrite Hc in Hv. exact Hv.
Qed.

(** A call redraws from the cache alone: two pages with the same cached
    entries end with the same completion, the same loading, gallery and
    error visibility and the same tiles, and with the same error text
    whenever the error is shown. *)
Theorem redraw_depends_on_cache_only LocalTZA endDateString p q :
  cache p = cache q ->
  let rp := filterAndRenderGallery LocalTZA endDateString p in
  let rq := filterAndRenderGallery LocalTZA endDateString q in
  fst rp = fst rq
  /\ loadingElement_hidden (snd rp) = loadingElement_hidden (snd rq)
  /\ galleryContainer_hidden (snd rp) = galleryContainer_hidden (snd rq)
  /\ errorElement_hidden (snd rp) = errorElement_hidden (snd rq)
  /\ galleryContainer_children (snd rp) = galleryContainer_children (snd rq)
  /\ (errorElement_hidden (snd rp) = false ->
      errorText_textContent (snd rp) = errorText_textContent (snd rq)).
Proof.
  intros Hc rp rq.
  pose proof (filterAndRenderGallery_view LocalTZA endDateString p)
    as (_ & _ & _ & Hp).
  pose proof (filterAndRenderGallery_view LocalTZA endDateString q)
    as (_ & _ & _ & Hq).
  fold rp in Hp. fold rq in Hq. unfold selection in Hp, Hq.
  rewrite <- Hc in Hq. unfold gallery_view in Hp, Hq.
  destruct (getStartDate LocalTZA endDateString) as [s|e].
  - cbv zeta in Hp, Hq. destruct Hp as [Hp1 Hp2], Hq as [Hq1 Hq2].
    destruct (_ <? _); injection Hp2 as -> -> -> -> ->;
      injection Hq2 as -> -> -> -> ->; repeat split; congruence.
  - destruct Hp as [Hp1 Hp2], Hq as [Hq1 Hq2].
    injection Hp2 as -> -> -> -> ->; injection Hq2 as -> -> -> -> ->.
    repeat split; congruence.
Qed.

(** Calling again with the same end date changes nothing on screen: the
    second call ends as the first did and leaves the gallery area, the
    modal and the cache as the first left them. *)
Theorem redraw_idempotent LocalTZA endDateString p :
  let r1 := filterAndRenderGallery LocalTZA endDateString p in
  let r2 := filterAndRenderGallery LocalTZA endDateString (snd r1) in
  fst r2 = fst r1
  /\ gallery_view (snd r2) = gallery_view (snd r1)
  /\ modal_view (snd r2) = modal_view (snd r1)
  /\ cache (snd r2) = cache (snd r1).
Proof.
  intros r1 r2.
  pose proof (filterAndRenderGallery_view LocalTZA endDateString p)
    as (Hc1 & _ & Hm1 & Hv1).
  pose proof (filterAndRenderGallery_view LocalTZA endDateString (snd r1))
    as (Hc2 & _ & Hm2 & Hv2).
  fold r1 in Hc1, Hm1, Hv1. fold r2 in Hc2, Hm2, Hv2.
  split; [|split; [|split; [exact Hm2|exact Hc2]]].
  - destruct (getStartDate LocalTZA endDateString); cbv zeta in *;
      destruct Hv1 as [-> _], Hv2 as [-> _]; reflexivity.
  - unfold selection in *. rewrite Hc1 in Hv2.
    destruct (getStartDate LocalTZA endDateString); cbv zeta in *;
      destruct Hv1 as [_ Hv1], Hv2 as [_ Hv2].
    + rewrite Hv2, Hv1. destruct (_ <? _); [reflexivity|].
      unfold gallery_view in Hv1. injection Hv1 as _ _ _ -> _. reflexivity.
    + rewrite Hv2, Hv1.
      unfold gallery_view in Hv1. injection Hv1 as _ _ _ -> _. reflexivity.
Qed.

(** ** The modal and the listeners *)

(** Opening an entry over another replaces it: only the entry opened last
    is in the modal, as if the earlier one had never been opened. *)
Theorem openModal_last_wins a b p :
  openModal b (openModal a p) = openModal b p.
Proof.
  unfold openModal.
  destruct (String.eqb (media_type a) "video"),
    (String.eqb (media_type b) "video"); reflexivity.
Qed.

(** Closing keeps the texts of the modal and reopening the same entry
    restores what was shown. *)
Theorem reopen_after_close item p :
  let closed := closeModal (openModal item p) in
  modalTitle_textContent closed = title item
  /\ modalDate_textContent closed = date item
  /\ modalExplanation_textContent closed = explanation item
  /\ openModal item closed = openModal item p.
Proof.
  cbv zeta. unfold closeModal, openModal.
  destruct (String.eqb (media_type item) "video"); repeat split.
Qed.

(** Only the Explore listener redraws: a tile click, a click on the modal,
    a key and the close control return normally and leave the gallery
    area and the cache as they are. *)
Theorem modal_events_keep_gallery LocalTZA ev p :
  (forall selectedDate, ev <> ExploreClick selectedDate) ->
  let r := dispatch LocalTZA ev p in
  fst r = Normal tt
  /\ gallery_view (snd r) = gallery_view p
  /\ cache (snd r) = cache p.
Proof.
  intros Hev. destruct ev as [s|i|[|]|key|]; cbn [dispatch].
  - now destruct (Hev s).
  - destruct (nth_error (galleryContainer_children p) i) as [[? ? item| |]|];
      try (repeat split; fail).
    unfold openModal.
    destruct (String.eqb (media_type item) "video"); repeat split.
  - repeat split.
  - repeat split.
  - destruct (_ && _); repeat split.
  - repeat split.
Qed.

(** A key or a click on the modal that is not a dismissal changes nothing:
    a key other than Escape, Escape while the modal is not visible, a
    click inside the content of the modal. *)
Theorem no_dismissal_no_change LocalTZA ev p :
  (exists key, ev = KeyDown key) \/ (exists target, ev = ModalClick target) ->
  dismissal ev p = false ->
  dispatch LocalTZA ev p = (Normal tt, p).
Proof.
  intros [[key ->] | [target ->]] Hd; cbn in Hd |- *; now rewrite Hd.
Qed.

(** Explore with no date selected shows the request to select one, hides
    the gallery without emptying it, and does not read the cache. *)
Theorem explore_without_date LocalTZA p :
  let r := dispatch LocalTZA (ExploreClick "") p in
  fst r = Normal tt
  /\ gallery_view (snd r)
     = (true, true, false, "Please select a valid end date.",
        galleryContainer_children p)
  /\ modal_view (snd r) = modal_view p
  /\ arrays (snd r) = arrays p.
Proof.
  cbv zeta. cbn [dispatch truthy String.eqb negb].
  unfold gallery_view, modal_view, updateUIState. cbn. repeat split.
Qed.

(** ** Tiles *)

Lemma nth_error_tiles data : forall index i,
  nth_error (tiles index data) i
  = option_map (fun item => itemElement item (index + i)) (nth_error data i).
Proof.
  induction data as [|item rest IH]; intros index [|i]; cbn [tiles nth_error];
    try reflexivity.
  - cbn. now rewrite Nat.add_0_r.
  - rewrite IH. now rewrite Nat.add_succ_r.
Qed.

Lemma tile_entry_tiles data : forall index,
  map tile_entry (tiles index data) = map Some data.
Proof.
  induction data as [|item rest IH]; intros index; cbn [tiles map];
    [reflexivity|]. now rewrite IH.
Qed.

(** [renderGallery] on its own: whatever was in the gallery before, it
    then holds one tile per entry of the array, the tile at position [i]
    carrying index [i] and opening the entry at position [i]; the gallery
    is shown, also for an empty array. *)
Theorem renderGallery_tiles data p :
  let p' := renderGallery data p in
  length (galleryContainer_children p') = length (deref p data)
  /\ (forall i item,
        nth_error (deref p data) i = Some item ->
        nth_error (galleryContainer_children p') i
        = Some (GalleryItem i
                  (itemHTML (mediaHTML_of item) (title item) (date item))
                  item))
  /\ loadingElement_hidden p' = true
  /\ galleryContainer_hidden p' = false
  /\ errorElement_hidden p' = true.
Proof.
  cbv zeta. rewrite renderGallery_eq. cbn.
  split; [apply length_tiles|]. split; [|auto].
  intros i item Hi. rewrite nth_error_tiles, Hi. reflexivity.
Qed.

(** On a cache whose entries carry calendar dates, after a gallery is
    rendered, a click on the tile at position [i] opens the entry at
    position [i] of the selection, an entry of the cache inside the
    window. *)
Theorem tile_click_opens_its_entry
  LocalTZA endDateString startDateString p i item :
  forallb well_dated (cache p) = true ->
  getStartDate LocalTZA endDateString = Normal startDateString ->
  (9 <= length (selection startDateString endDateString p))%nat ->
  nth_error (selection startDateString endDateString p) i = Some item ->
  let p' := snd (filterAndRenderGallery LocalTZA endDateString p) in
  dispatch LocalTZA (TileClick i) p' = (Normal tt, openModal item p')
  /\ modalTitle_textContent (openModal item p') = title item
  /\ modalElement_visible (openModal item p') = true
  /\ In item (cache p)
  /\ in_window startDateString endDateString item = true.
Proof.
  intros _ Hs Hlen Hi p'. subst p'.
  pose proof (filterAndRenderGallery_view LocalTZA endDateString p)
    as (_ & _ & _ & Hv).
  rewrite Hs in Hv. cbv zeta in Hv. destruct Hv as [_ Hv].
  replace (Z.of_nat (length (selection startDateString endDateString p))
           <? GALLERY_DAYS) with false in Hv
    by (symmetry; apply Z.ltb_ge; unfold GALLERY_DAYS; lia).
  unfold gallery_view in Hv. injection Hv as _ _ _ _ Hch.
  split; [|split; [|split]].
  - cbn [dispatch]. rewrite Hch, nth_error_tiles, Hi. reflexivity.
  - unfold openModal. destruct (String.eqb _ _); reflexivity.
  - unfold openModal. destruct (String.eqb _ _); reflexivity.
  - apply nth_error_In in Hi. apply selection_In in Hi as (Hc & H1 & H2).
    split; [exact Hc|]. unfold in_window. now rewrite H1, H2.
Qed.

(** On a cache whose entries carry calendar dates, the tiles of a rendered
    gallery stand from the most recent entry to the oldest. *)
Theorem gallery_newest_first LocalTZA endDateString startDateString p :
  getStartDate LocalTZA endDateString = Normal startDateString ->
  (9 <= length (selection startDateString endDateString p))%nat ->
  forallb well_dated (cache p) = true ->
  let p' := snd (filterAndRenderGallery LocalTZA endDateString p) in
  exists data,
    map tile_entry (galleryContainer_children p') = map Some data
    /\ StronglySorted not_older data
    /\ StronglySorted (fun a b => str_le (date b) (date a) = true) data.
Proof.
  intros Hs Hlen Hd p'. subst p'.
  pose proof (filterAndRenderGallery_view LocalTZA endDateString p)
    as (_ & _ & _ & Hv).
  rewrite Hs in Hv. cbv zeta in Hv. destruct Hv as [_ Hv].
  replace (Z.of_nat (length (selection startDateString endDateString p))
           <? GALLERY_DAYS) with false in Hv
    by (symmetry; apply Z.ltb_ge; unfold GALLERY_DAYS; lia).
  unfold gallery_view in Hv. injection Hv as _ _ _ _ Hch.
  exists (selection startDateString endDateString p).
  split; [rewrite Hch; apply tile_entry_tiles|].
  assert (StronglySorted not_older
            (selection startDateString endDateString p)) as Hsorted.
  { apply sort_list_sorted. apply well_dated_dated in Hd.
    apply List.Forall_forall. intros x Hx. apply filter_In in Hx as [Hx _].
    revert x Hx. now apply List.Forall_forall. }
  split; [exact Hsorted|].
  eapply StronglySorted_weaken; [|exact Hsorted].
  intros a b. apply not_older_str_le.
Qed.

(** ** The load *)

Lemma filterAndRenderGallery_arrays LocalTZA endDateString p r :
  arrays p !! r <> None ->
  arrays (snd (filterAndRenderGallery LocalTZA endDateString p)) !! r
  = arrays p !! r.
Proof.
  intros Hr. unfold filterAndRenderGallery.
  destruct (getStartDate LocalTZA endDateString) as [s|e]; [|reflexivity].
  set (p0 := set_error_hidden true _).
  destruct (filteredData_of_store s endDateString p0)
    as (r0 & A & Heq & _ & Hnew & _ & Hother).
  rewrite Heq.
  assert (A !! r = arrays p !! r) as HA.
  { apply Hother. intros ->. now apply Hr. }
  destruct (_ <? _); [exact HA|]. rewrite renderGallery_eq. exact HA.
Qed.

Lemma truthy_loadFailedMessage : truthy (Some loadFailedMessage) = true.
Proof. reflexivity. Qed.

(** When the request fails, the load ends with the gallery empty and
    hidden, the loading indicator off and the load-failure message shown;
    the cache, the modal and the date control are as before. *)
Theorem load_failure_shows_error LocalTZA now d :
  let d' := fetchAPODData LocalTZA None now d in
  gallery_view (page d') = (true, true, false, loadFailedMessage, [])
  /\ modal_view (page d') = modal_view (page d)
  /\ arrays (page d') = arrays (page d)
  /\ allAPODData (page d') = allAPODData (page d)
  /\ endDateInput_value d' = endDateInput_value d.
Proof.
  cbv zeta. unfold fetchAPODData, fetchAPODData_settle, fetchAPODData_begin.
  cbn [page set_page endDateInput_value].
  unfold gallery_view, modal_view, updateUIState.
  rewrite truthy_loadFailedMessage. cbn. repeat split.
Qed.

(** The page on which the settled load calls [filterAndRenderGallery]:
    [allAPODData] refers to a new array that holds the parsed body. *)
Lemma loaded_page json p :
  let q := set_allAPODData (fst (alloc json p)) (snd (alloc json p)) in
  cache q = json
  /\ gallery_view q = gallery_view p
  /\ modal_view q = modal_view p
  /\ (forall r, arrays p !! r <> None -> arrays q !! r = arrays p !! r)
  /\ arrays p !! allAPODData q = None.
Proof.
  cbv zeta. destruct (alloc_fresh json p) as [_ Hnew].
  unfold alloc in *. cbn [fst snd] in *.
  set (r := fresh (dom (arrays p) ∪ {[allAPODData p]})) in *.
  split; [|split; [reflexivity|split; [reflexivity|split]]].
  - unfold cache, deref. cbn. now rewrite lookup_insert_eq.
  - intros r' Hr'. cbn. apply lookup_insert_ne. intros <-. now apply Hr'.
  - exact Hnew.
Qed.

(** When the request succeeds, the cache holds exactly the parsed body, in
    a new array: the array that was the cache before is not written to. *)
Theorem load_success_installs_cache LocalTZA json now d :
  let d' := fetchAPODData LocalTZA (Some json) now d in
  cache (page d') = json
  /\ arrays (page d) !! allAPODData (page d') = None
  /\ (forall r, arrays (page d) !! r <> None ->
      arrays (page d') !! r = arrays (page d) !! r).
Proof.
  cbv zeta. unfold fetchAPODData, fetchAPODData_settle.
  set (p := page (fetchAPODData_begin d)).
  assert (arrays p = arrays (page d)) as Harr by reflexivity.
  pose proof (loaded_page json p) as (Hc & _ & _ & Hold & Hnew).
  cbv zeta in Hc, Hold, Hnew. destruct (alloc json p) as [r p1].
  cbn [fst snd] in *. rewrite getTodayDate_eq.
  set (q := set_allAPODData r p1) in *.
  pose proof (filterAndRenderGallery_view LocalTZA (ISODateString now) q)
    as (Hc' & Ha' & _ & _).
  assert (forall r', arrays (page d) !! r' <> None ->
            arrays (snd (filterAndRenderGallery LocalTZA (ISODateString now) q))
              !! r' = arrays (page d) !! r') as Hkeep.
  { intros r' Hr'. rewrite <- Harr in Hr' |- *.
    rewrite filterAndRenderGallery_arrays; [now apply Hold|].
    rewrite Hold; assumption. }
  destruct (filterAndRenderGallery LocalTZA (ISODateString now) q)
    as [[u|e] p'] eqn:Hf; cbn [fst snd page set_page set_input_value] in *.
  - split; [congruence|]. split; [|exact Hkeep].
    rewrite Ha'. rewrite <- Harr. exact Hnew.
  - split; [unfold cache, deref in *; cbn; congruence|].
    split; [|exact Hkeep].
    cbn. rewrite Ha'. rewrite <- Harr. exact Hnew.
Qed.

(** When the request succeeds, on a host whose zone offset stays below a
    day and with the clock in the years 1 to 9999, the load shows the
    window that ends today: the date control holds today's date, and the
    gallery area is what [filterAndRenderGallery] makes of the parsed body,
    one tile for each entry of the body inside the window when there are
    at least nine, and the count message otherwise; when the entries of
    the body carry calendar dates the tiles stand in the order of the
    sort; the load-failure message is not set. *)
Theorem load_success_shows_today LocalTZA json now d :
  zone_bounded LocalTZA ->
  DayFromYear 1 <= Day now < DayFromYear 10000 ->
  let d' := fetchAPODData LocalTZA (Some json) now d in
  exists today startDateString,
    getTodayDate now = Normal today
    /\ getStartDate LocalTZA today = Normal startDateString
    /\ endDateInput_value d' = today
    /\ modal_view (page d') = modal_view (page d)
    /\ exists data,
        Permutation data (List.filter (in_window startDateString today) json)
        /\ (forallb well_dated json = true ->
            data = sort_list by_date_descending
                     (List.filter (in_window startDateString today) json))
        /\ gallery_view (page d')
           = if Z.of_nat (length data) <? GALLERY_DAYS
             then (true, true, false, insufficientMessage (length data), [])
             else (true, false, true, errorText_textContent (page d),
                   tiles 0 data).
Proof.
  intros Hz Hr. cbv zeta.
  assert (DayFromYear 0 + 10 <= Day now) as Hlo
    by (change (DayFromYear 1) with (-719162) in Hr;
        change (DayFromYear 0) with (-719528); lia).
  pose proof (getTodayDate_parse now ltac:(lia)) as Hp.
  destruct (getStartDate_total LocalTZA _ _ Hz Hp) as [Hs _].
  exists (ISODateString now),
    (ISODateString (start_time LocalTZA (Day now * msPerDay))).
  split; [apply getTodayDate_eq|]. split; [exact Hs|].
  unfold fetchAPODData, fetchAPODData_settle.
  set (p := page (fetchAPODData_begin d)).
  pose proof (loaded_page json p) as (Hc & Hg & Hm & _ & _).
  cbv zeta in Hc, Hg, Hm. destruct (alloc json p) as [r p1].
  cbn [fst snd] in *. rewrite getTodayDate_eq.
  set (q := set_allAPODData r p1) in *.
  pose proof (filterAndRenderGallery_view LocalTZA (ISODateString now) q)
    as (_ & _ & Hm' & Hv).
  rewrite Hs in Hv. cbv zeta in Hv. destruct Hv as [Hfst Hv].
  unfold selection in Hv. rewrite Hc in Hv.
  destruct (filterAndRenderGallery LocalTZA (ISODateString now) q)
    as [[u|e] p'] eqn:Hf; cbn [fst snd] in *; [|discriminate Hfst].
  cbn [page set_page set_input_value endDateInput_value].
  split.
  - unfold date_value_sanitized. rewrite Hp.
    replace (TimeFromYear 1 <=? Day now * msPerDay) with true; [reflexivity|].
    symmetry. apply Z.leb_le. unfold TimeFromYear, msPerDay. lia.
  - split; [rewrite Hm', Hm; reflexivity|].
    eexists. split; [apply sort_list_perm|]. split; [reflexivity|].
    rewrite Hv.
    replace (errorText_textContent q) with (errorText_textContent (page d));
      [reflexivity|].
    unfold gallery_view in Hg. injection Hg as _ _ _ Ht _.
    symmetry. exact Ht.
Qed.

(** After such a load, Explore with the date control untouched redraws
    the same gallery area. *)
Theorem explore_after_load_redraws LocalTZA json now d :
  zone_bounded LocalTZA ->
  DayFromYear 1 <= Day now < DayFromYear 10000 ->
  let d1 := fetchAPODData LocalTZA (Some json) now d in
  let r := happen LocalTZA ExploreButton d1 in
  fst r = Normal tt
  /\ gallery_view (page (snd r)) = gallery_view (page d1)
  /\ cache (page (snd r)) = json
  /\ endDateInput_value (snd r) = endDateInput_value d1.
Proof.
  intros Hz Hr d1 r.
  assert (DayFromYear 0 + 10 <= Day now) as Hlo
    by (change (DayFromYear 1) with (-719162) in Hr;
        change (DayFromYear 0) with (-719528); lia).
  pose proof (getTodayDate_parse now ltac:(lia)) as Hp.
  destruct (getStartDate_total LocalTZA _ _ Hz Hp) as [Hs _].
  set (today := ISODateString now) in *.
  (* the page the load leaves *)
  assert (exists q,
             cache q = json
             /\ d1 = mkDocument
                       (snd (filterAndRenderGallery LocalTZA today q))
                       today (endDateInput_max d)) as (q & Hcq & Hd1).
  { subst d1. unfold fetchAPODData, fetchAPODData_settle.
    set (p := page (fetchAPODData_begin d)).
    pose proof (loaded_page json p) as (Hc & _). cbv zeta in Hc.
    destruct (alloc json p) as [r0 p1]. cbn [fst snd] in Hc.
    rewrite getTodayDate_eq. fold today.
    exists (set_allAPODData r0 p1). split; [exact Hc|].
    pose proof (filterAndRenderGallery_view LocalTZA today
                  (set_allAPODData r0 p1)) as (_ & _ & _ & Hv).
    rewrite Hs in Hv. cbv zeta in Hv. destruct Hv as [Hfst _].
    destruct (filterAndRenderGallery LocalTZA today (set_allAPODData r0 p1))
      as [[u|e] p'] eqn:Hf; cbn [fst snd] in *; [|discriminate Hfst].
    unfold set_page, set_input_value. cbn. f_equal.
    unfold date_value_sanitized. subst today. rewrite Hp.
    replace (TimeFromYear 1 <=? Day now * msPerDay) with true; [reflexivity|].
    symmetry. apply Z.leb_le. unfold TimeFromYear, msPerDay. lia. }
  set (p1 := snd (filterAndRenderGallery LocalTZA today q)) in *.
  pose proof (filterAndRenderGallery_view LocalTZA today q)
    as (Hc1 & _ & _ & Hv1).
  pose proof (filterAndRenderGallery_view LocalTZA today p1)
    as (Hc2 & _ & _ & Hv2).
  fold p1 in Hc1, Hv1. rewrite Hs in Hv1, Hv2. cbv zeta in Hv1, Hv2.
  destruct Hv1 as [_ Hv1], Hv2 as [Hf2 Hv2].
  unfold selection in Hv1, Hv2. rewrite Hc1 in Hv2.
  assert (truthy (Some today) = true) as Htr.
  { subst today. unfold ISODateString, YearString, ToZeroPaddedDecimalString.
    destruct (_ && _); [|destruct (0 <? _)]; reflexivity. }
  subst r. rewrite Hd1. cbn [happen dispatch endDateInput_value page].
  rewrite Htr.
  destruct (filterAndRenderGallery LocalTZA today p1) as [c p2] eqn:Hf.
  cbn [fst snd page set_page endDateInput_value] in *.
  split; [exact Hf2|]. split; [|split; [congruence|reflexivity]].
  rewrite Hv2, Hv1. destruct (_ <? _); [reflexivity|].
  unfold gallery_view in Hv1. injection Hv1 as _ _ _ Ht _.
  now rewrite Ht.
Qed.

(** ** What every sequence of happenings keeps true *)

(** What one call of [filterAndRenderGallery] can do to the gallery. *)
Lemma filterAndRenderGallery_summary LocalTZA endDateString q :
  let r := filterAndRenderGallery LocalTZA endDateString q in
  cache (snd r) = cache q
  /\ modal_view (snd r) = modal_view q
  /\ (forall e, fst r = Throw e -> galleryContainer_children (snd r) = [])
  /\ ((galleryContainer_children (snd r) = []
       /\ galleryContainer_hidden (snd r) = true)
      \/ exists data,
          galleryContainer_children (snd r) = tiles 0 data
          /\ (9 <= length data)%nat
          /\ (forall item, In item data -> In item (cache (snd r)))
          /\ loadingElement_hidden (snd r) = true
          /\ galleryContainer_hidden (snd r) = false
          /\ errorElement_hidden (snd r) = true).
Proof.
  cbv zeta.
  pose proof (filterAndRenderGallery_view LocalTZA endDateString q)
    as (Hc & _ & Hm & Hv).
  split; [exact Hc|]. split; [exact Hm|].
  unfold gallery_view in Hv.
  destruct (getStartDate LocalTZA endDateString) as [s|e].
  - cbv zeta in Hv. destruct Hv as [Hf Hv].
    split; [intros e He; congruence|].
    destruct (Z.of_nat (length (selection s endDateString q)) <? GALLERY_DAYS)
      eqn:Hlen; injection Hv as Hl Hg He _ Hch.
    + left. auto.
    + right. exists (selection s endDateString q).
      apply Z.ltb_ge in Hlen. unfold GALLERY_DAYS in Hlen.
      repeat split; try assumption; [lia|].
      intros item Hi. rewrite Hc. now apply selection_In in Hi.
  - destruct Hv as [_ Hv]. injection Hv as _ Hg _ _ Hch.
    split; [intros _ _; exact Hch|]. left. auto.
Qed.

(** What one event of [dispatch] can do to the page: to the gallery area
    (left as it is or only hidden, emptied and hidden, or redrawn with at
    least nine tiles of the cache) and to the modal (left as it is, opened
    on one media element, or closed and emptied). *)
Lemma dispatch_summary LocalTZA ev p :
  let p' := snd (dispatch LocalTZA ev p) in
  ((galleryContainer_children p' = galleryContainer_children p
    /\ cache p' = cache p
    /\ ((loadingElement_hidden p' = loadingElement_hidden p
         /\ galleryContainer_hidden p' = galleryContainer_hidden p
         /\ errorElement_hidden p' = errorElement_hidden p)
        \/ galleryContainer_hidden p' = true))
   \/ (galleryContainer_children p' = [] /\ galleryContainer_hidden p' = true)
   \/ exists data,
       galleryContainer_children p' = tiles 0 data
       /\ (9 <= length data)%nat
       /\ (forall item, In item data -> In item (cache p'))
       /\ loadingElement_hidden p' = true
       /\ galleryContainer_hidden p' = false
       /\ errorElement_hidden p' = true)
  /\ (modal_view p' = modal_view p
      \/ (modalElement_visible p' = true
          /\ length (modalMediaContainer_children p') = 1%nat)
      \/ (modalElement_visible p' = false
          /\ modalMediaContainer_children p' = [])).
Proof.
  cbv zeta. destruct ev as [s|i|[|]|key|]; cbn [dispatch].
  - destruct (truthy (Some s)).
    + destruct (filterAndRenderGallery_summary LocalTZA s p)
        as (_ & Hm & _ & Hg).
      split; [right; exact Hg|left; exact Hm].
    + cbn. split; [left|left; reflexivity]. repeat split. right. reflexivity.
  - destruct (nth_error (galleryContainer_children p) i) as [[? ? item| |]|];
      try (cbn; split; [left|left; reflexivity]; repeat split; left; auto).
    cbn [snd]. unfold openModal.
    destruct (String.eqb (media_type item) "video"); cbn;
      (split; [left; repeat split; left; auto|right; left; auto]).
  - cbn. split; [left; repeat split; left; auto|right; right; auto].
  - cbn. split; [left; repeat split; left; auto|left; reflexivity].
  - destruct (_ && _); cbn.
    + split; [left; repeat split; left; auto|right; right; auto].
    + split; [left; repeat split; left; auto|left; reflexivity].
  - cbn. split; [left; repeat split; left; auto|right; right; auto].
Qed.

(** The same for one happening. *)
Lemma happen_summary LocalTZA h d :
  let p := page d in
  let p' := page (snd (happen LocalTZA h d)) in
  ((galleryContainer_children p' = galleryContainer_children p
    /\ cache p' = cache p
    /\ ((loadingElement_hidden p' = loadingElement_hidden p
         /\ galleryContainer_hidden p' = galleryContainer_hidden p
         /\ errorElement_hidden p' = errorElement_hidden p)
        \/ galleryContainer_hidden p' = true))
   \/ (galleryContainer_children p' = [] /\ galleryContainer_hidden p' = true)
   \/ exists data,
       galleryContainer_children p' = tiles 0 data
       /\ (9 <= length data)%nat
       /\ (forall item, In item data -> In item (cache p'))
       /\ loadingElement_hidden p' = true
       /\ galleryContainer_hidden p' = false
       /\ errorElement_hidden p' = true)
  /\ (modal_view p' = modal_view p
      \/ (modalElement_visible p' = true
          /\ length (modalMediaContainer_children p') = 1%nat)
      \/ (modalElement_visible p' = false
          /\ modalMediaContainer_children p' = [])).
Proof.
  cbv zeta. destruct h as [now|response now|value| |ev].
  - cbn [happen]. rewrite getTodayDate_eq. cbn.
    split; [right; left|left]; auto.
  - cbn [happen snd]. unfold fetchAPODData_settle.
    destruct response as [json|].
    + pose proof (loaded_page json (page d)) as (_ & _ & Hm & _).
      cbv zeta in Hm. destruct (alloc json (page d)) as [r p1].
      cbn [fst snd] in Hm. rewrite getTodayDate_eq.
      destruct (filterAndRenderGallery_summary LocalTZA (ISODateString now)
                  (set_allAPODData r p1)) as (_ & Hm' & Hthrow & Hg).
      destruct (filterAndRenderGallery LocalTZA (ISODateString now)
                  (set_allAPODData r p1)) as [[u|e] p'];
        cbn [fst snd page set_page set_input_value] in *.
      * split; [right; exact Hg|left; congruence].
      * split.
        -- right. left. split; [|reflexivity]. cbn. now apply (Hthrow e).
        -- left. rewrite <- Hm, <- Hm'. reflexivity.
    + cbn. split; [left|left; reflexivity]. repeat split. right. reflexivity.
  - cbn. split; [left|left; reflexivity]. repeat split. left. auto.
  - cbn [happen].
    pose proof (dispatch_summary LocalTZA
                  (ExploreClick (endDateInput_value d)) (page d)) as H.
    cbv zeta in H. destruct (dispatch _ _ _) as [c p']. exact H.
  - cbn [happen].
    pose proof (dispatch_summary LocalTZA ev (page d)) as H.
    cbv zeta in H. destruct (dispatch _ _ _) as [c p']. exact H.
Qed.

(** The gallery never holds a partial window: from a document whose
    gallery is empty or has at least nine tiles, every sequence of
    happenings leads to such a document. *)
Theorem gallery_stays_all_or_nothing LocalTZA hs : forall d,
  all_or_nothing (page d) -> all_or_nothing (page (run LocalTZA hs d)).
Proof.
  induction hs as [|h rest IH]; intros d Hd; cbn [run]; [exact Hd|].
  apply IH. unfold all_or_nothing in *.
  destruct (happen_summary LocalTZA h d) as [Hg _]. cbv zeta in Hg.
  destruct Hg as [(Hch & _) | [(Hch & _) | (data & Hch & Hlen & _)]].
  - now rewrite Hch.
  - left. exact Hch.
  - right. rewrite Hch, length_tiles. exact Hlen.
Qed.

(** Every tile belongs to an entry of the cache as it is now, also after
    the cache is replaced by a load: from a document of which this holds,
    every sequence of happenings leads to such a document. *)
Theorem tiles_stay_in_cache LocalTZA hs : forall d,
  tiles_of_cache (page d) -> tiles_of_cache (page (run LocalTZA hs d)).
Proof.
  induction hs as [|h rest IH]; intros d Hd; cbn [run]; [exact Hd|].
  apply IH. unfold tiles_of_cache in *.
  destruct (happen_summary LocalTZA h d) as [Hg _]. cbv zeta in Hg.
  destruct Hg as [(Hch & Hc & _) | [(Hch & _) | (data & Hch & _ & Hin & _)]].
  - rewrite Hch, Hc. exact Hd.
  - rewrite Hch. intros n [].
  - rewrite Hch. intros n Hn.
    destruct (tiles_inv _ _ _ Hn) as (i & item & -> & Hi).
    exists i, item. split; [reflexivity|]. now apply Hin.
Qed.

(** The gallery is never shown together with the loading indicator or the
    error: from a document of which this holds, every sequence of
    happenings leads to such a document. *)
Theorem gallery_stays_shown_alone LocalTZA hs : forall d,
  gallery_shown_alone (page d) ->
  gallery_shown_alone (page (run LocalTZA hs d)).
Proof.
  induction hs as [|h rest IH]; intros d Hd; cbn [run]; [exact Hd|].
  apply IH. unfold gallery_shown_alone in *.
  destruct (happen_summary LocalTZA h d) as [Hg _]. cbv zeta in Hg.
  destruct Hg as [(_ & _ & [(Hl & Hg & He) | Hg]) | [(_ & Hg) |
                  (data & _ & _ & _ & Hl & Hg & He)]].
  - rewrite Hl, Hg, He. exact Hd.
  - rewrite Hg. discriminate.
  - rewrite Hg. discriminate.
  - auto.
Qed.

(** No media element outlives the detail view: from a document whose modal
    holds at most one media element, and none while it is not visible,
    every sequence of happenings leads to such a document. *)
Theorem modal_media_stays_guarded LocalTZA hs : forall d,
  modal_media_guarded (page d) ->
  modal_media_guarded (page (run LocalTZA hs d)).
Proof.
  induction hs as [|h rest IH]; intros d Hd; cbn [run]; [exact Hd|].
  apply IH. unfold modal_media_guarded in *.
  destruct (happen_summary LocalTZA h d) as [_ Hm]. cbv zeta in Hm.
  destruct Hm as [Hm | [(Hv & Hlen) | (Hv & Hch)]].
  - unfold modal_view in Hm. injection Hm as Hv _ _ _ Hch.
    rewrite Hv, Hch. exact Hd.
  - rewrite Hv, Hlen. split; [lia|discriminate].
  - rewrite Hch. split; [cbn; lia|reflexivity].
Qed.

(** ** The window in calendar terms *)

(** The filter compares strings, and on calendar dates that is the
    comparison of days: with a start date, an end date and an entry date
    that are calendar dates, the entry passes the filter exactly when its
    day is neither before the start day nor after the end day. *)
Theorem filter_compares_days startDateString endDateString item ts te ti :
  Date_parse startDateString = Some ts ->
  Date_parse endDateString = Some te ->
  Date_parse (date item) = Some ti ->
  (in_window startDateString endDateString item = true <-> ts <= ti <= te).
Proof.
  intros Hs He Hi. unfold in_window. rewrite andb_true_iff.
  rewrite (str_le_dates _ _ _ _ Hs Hi), (str_le_dates _ _ _ _ Hi He).
  reflexivity.
Qed.

(** On a host whose zone offset never changes, [getStartDate] returns the
    calendar date eight days before the end date (from 9 January of the
    year 0000 on), a date that as a string is not after the end date. *)
Theorem start_date_eight_days_back LocalTZA endDateString t :
  zone_fixed LocalTZA ->
  Date_parse endDateString = Some t ->
  DayFromYear 0 + 8 <= Day t ->
  exists startDateString,
    getStartDate LocalTZA endDateString = Normal startDateString
    /\ Date_parse startDateString = Some (t - 8 * msPerDay)
    /\ str_le startDateString endDateString = true.
Proof.
  intros Hz Hp Hlo.
  destruct (getStartDate_fixed_offset LocalTZA _ _ Hz Hp) as [Hs Hv].
  specialize (Hv Hlo). eexists. split; [exact Hs|]. split; [exact Hv|].
  apply (str_le_dates _ _ _ _ Hv Hp). unfold msPerDay. lia.
Qed.

(** On any host whose zone offset stays below a day, the start date is
    seven to ten days before the end date, so an entry dated on the end
    date always passes the filter. *)
Theorem end_date_entry_qualifies LocalTZA endDateString t item :
  zone_bounded LocalTZA ->
  Date_parse endDateString = Some t ->
  DayFromYear 0 + 10 <= Day t ->
  date item = endDateString ->
  exists startDateString ts,
    getStartDate LocalTZA endDateString = Normal startDateString
    /\ Date_parse startDateString = Some ts
    /\ Day t - 10 <= Day ts <= Day t - 7
    /\ in_window startDateString endDateString item = true.
Proof.
  intros Hz Hp Hlo Hd.
  destruct (getStartDate_total LocalTZA _ _ Hz Hp) as [Hs Hv].
  specialize (Hv Hlo).
  pose proof (start_time_bounded LocalTZA t Hz) as Hb.
  destruct (Date_parse_inv _ _ Hp) as (k & -> & _).
  rewrite Day_midnight in *.
  assert (k - 10 <= Day (start_time LocalTZA (k * msPerDay)) <= k - 7) as Hday.
  { unfold Day, msPerDay in *. Z.div_mod_to_equations. lia. }
  eexists _, _. split; [exact Hs|]. split; [exact Hv|].
  rewrite Day_midnight. split; [exact Hday|].
  unfold in_window. rewrite Hd. apply andb_true_iff. split.
  - apply (str_le_dates _ _ _ _ Hv Hp).
    apply Z.mul_le_mono_nonneg_r; [discriminate|lia].
  - apply (str_le_dates _ _ _ _ Hp Hp). lia.
Qed.

(** ** The order of the data does not matter *)

Lemma Permutation_filter_bool (f : Entry -> bool) l1 l2 :
  Permutation l1 l2 -> Permutation (List.filter f l1) (List.filter f l2).
Proof.
  induction 1 as [|x l1 l2 _ IH|x y l|l1 l2 l3 _ IH1 _ IH2];
    cbn [List.filter].
  - constructor.
  - destruct (f x); [now constructor|exact IH].
  - destruct (f x), (f y); try reflexivity. apply perm_swap.
  - now rewrite IH1.
Qed.

Lemma sorted_permutation_unique (R : Entry -> Entry -> Prop) l1 : forall l2,
  (forall a b, In a l1 -> In b l1 -> R a b -> R b a -> a = b) ->
  StronglySorted R l1 -> StronglySorted R l2 -> Permutation l1 l2 ->
  l1 = l2.
Proof.
  induction l1 as [|x l1 IH]; intros l2 Hanti H1 H2 Hp.
  - apply Permutation_nil in Hp. now subst.
  - destruct l2 as [|y l2];
      [apply Permutation_sym, Permutation_nil in Hp; discriminate|].
    apply StronglySorted_inv in H1 as [H1 Hx].
    apply StronglySorted_inv in H2 as [H2 Hy].
    assert (x = y) as Hxy.
    { assert (In x (y :: l2)) as Hxin
        by (eapply Permutation_in; [exact Hp|now left]).
      assert (In y (x :: l1)) as Hyin
        by (eapply Permutation_in; [symmetry; exact Hp|now left]).
      destruct Hxin as [Heq|Hxin]; [now symmetry|].
      destruct Hyin as [Heq|Hyin]; [exact Heq|].
      apply Hanti; [now left|now right| |].
      - exact (proj1 (List.Forall_forall _ _) Hx y Hyin).
      - exact (proj1 (List.Forall_forall _ _) Hy x Hxin). }
    subst y. f_equal. apply IH; try assumption.
    + intros a b Ha Hb. apply Hanti; now right.
    + now apply Permutation_cons_inv in Hp.
Qed.

Lemma same_day_same_date a b t :
  Date_parse a = Some t -> Date_parse b = Some t -> a = b.
Proof.
  intros Ha Hb. apply String.leb_antisym.
  - apply (str_le_dates _ _ _ _ Ha Hb). lia.
  - apply (str_le_dates _ _ _ _ Hb Ha). lia.
Qed.

Lemma NoDup_map_eq (l : list Entry) : forall a b,
  List.NoDup (map date l) -> In a l -> In b l -> date a = date b -> a = b.
Proof.
  induction l as [|x l IH]; intros a b Hnd Ha Hb Heq; [destruct Ha|].
  cbn [map] in Hnd. apply NoDup_cons_iff in Hnd as [Hx Hnd].
  destruct Ha as [->|Ha], Hb as [->|Hb]; try reflexivity.
  - exfalso. apply Hx. rewrite Heq. now apply in_map.
  - exfalso. apply Hx. rewrite <- Heq. now apply in_map.
  - now apply IH.
Qed.

(** When every entry carries a calendar date and no two entries share a
    date, the gallery does not depend on the order of the entries in the
    cache: two pages whose caches hold the same entries in any order get
    the same tiles and the same visibility. *)
Theorem gallery_ignores_cache_order LocalTZA endDateString p q :
  Permutation (cache p) (cache q) ->
  forallb well_dated (cache p) = true ->
  List.NoDup (map date (cache p)) ->
  let rp := filterAndRenderGallery LocalTZA endDateString p in
  let rq := filterAndRenderGallery LocalTZA endDateString q in
  fst rp = fst rq
  /\ galleryContainer_children (snd rp) = galleryContainer_children (snd rq)
  /\ loadingElement_hidden (snd rp) = loadingElement_hidden (snd rq)
  /\ galleryContainer_hidden (snd rp) = galleryContainer_hidden (snd rq)
  /\ errorElement_hidden (snd rp) = errorElement_hidden (snd rq).
Proof.
  intros Hperm Hd Hnd rp rq. subst rp rq.
  assert (forall s, selection s endDateString p = selection s endDateString q)
    as Hsel.
  { intros s. apply well_dated_dated in Hd.
    assert (Forall dated (cache q)) as Hdq
        by (eapply Permutation_Forall; eassumption).
    assert (forall l, Forall dated l ->
              Forall dated (List.filter (in_window s endDateString) l)) as Hf.
    { intros l Hl. apply List.Forall_forall. intros x Hx.
      apply filter_In in Hx as [Hx _]. revert x Hx.
      now apply List.Forall_forall. }
    apply (sorted_permutation_unique not_older).
    - intros a b Ha Hb (ta & tb & Hta & Htb & H1) (tb' & ta' & Htb' & Hta' & H2).
      apply selection_In in Ha as [Ha _]. apply selection_In in Hb as [Hb _].
      rewrite Hta in Hta'. rewrite Htb in Htb'.
      injection Hta' as <-. injection Htb' as <-.
      assert (ta = tb) as <- by lia.
      apply (NoDup_map_eq (cache p)); try assumption.
      eapply same_day_same_date; eassumption.
    - apply sort_list_sorted, Hf, Hd.
    - apply sort_list_sorted, Hf, Hdq.
    - unfold selection. rewrite !sort_list_perm.
      now apply Permutation_filter_bool. }
  pose proof (filterAndRenderGallery_view LocalTZA endDateString p)
    as (_ & _ & _ & Hp).
  pose proof (filterAndRenderGallery_view LocalTZA endDateString q)
    as (_ & _ & _ & Hq).
  unfold gallery_view in Hp, Hq.
  destruct (getStartDate LocalTZA endDateString) as [s|e].
  - cbv zeta in Hp, Hq. rewrite <- Hsel in Hq.
    destruct Hp as [Hp1 Hp2], Hq as [Hq1 Hq2].
    destruct (_ <? _); injection Hp2 as -> -> -> _ ->;
      injection Hq2 as -> -> -> _ ->; repeat split; congruence.
  - destruct Hp as [Hp1 Hp2], Hq as [Hq1 Hq2].
    injection Hp2 as -> -> -> _ ->; injection Hq2 as -> -> -> _ ->.
    repeat split; congruence.
Qed.

(** ** The further properties at concrete inputs *)

(** An order between closed numbers, by computation. *)
Ltac closed_order := vm_compute; repeat split; (discriminate || reflexivity).

Lemma getTodayDate_utc_day_witness :
  DayFromYear 0 <= Day 1704800000000 < DayFromYear 10000
  /\ exists today t,
      getTodayDate 1704800000000 = Normal today
      /\ Date_parse today = Some t
      /\ t <= 1704800000000 < t + msPerDay.
Proof.
  assert (DayFromYear 0 <= Day 1704800000000 < DayFromYear 10000) as H
    by closed_order.
  split; [exact H|]. exact (getTodayDate_utc_day 1704800000000 H).
Defined.

Lemma zone_bounded_Eastern : zone_bounded Eastern_2024.
Proof.
  intros t isUTC. unfold Eastern_2024. cbv zeta.
  destruct isUTC; destruct (_ && _); reflexivity.
Defined.

Lemma zone_bounded_UTC : zone_bounded UTC_zone.
Proof. intros t isUTC. reflexivity. Defined.

Lemma zone_fixed_UTC : zone_fixed UTC_zone.
Proof. exists 0. reflexivity. Defined.

Lemma start_date_of_today_witness :
  zone_bounded Eastern_2024
  /\ DayFromYear 0 + 10 <= Day 1704800000000 < DayFromYear 10000
  /\ exists today startDateString,
      getTodayDate 1704800000000 = Normal today
      /\ getStartDate Eastern_2024 today = Normal startDateString
      /\ Date_parse startDateString <> None.
Proof.
  assert (DayFromYear 0 + 10 <= Day 1704800000000 < DayFromYear 10000) as H
    by closed_order.
  split; [exact zone_bounded_Eastern|]. split; [exact H|].
  exact (start_date_of_today Eastern_2024 1704800000000
           zone_bounded_Eastern H).
Defined.

Lemma empty_cache_reports_zero_witness :
  cache initial_page = []
  /\ getStartDate UTC_zone "2024-01-09" = Normal "2024-01-01"
  /\ fst (filterAndRenderGallery UTC_zone "2024-01-09" initial_page)
     = Normal tt.
Proof.
  assert (cache initial_page = []) as H1 by reflexivity.
  assert (getStartDate UTC_zone "2024-01-09" = Normal "2024-01-01") as H2
    by (vm_compute; reflexivity).
  split; [exact H1|]. split; [exact H2|].
  exact (proj1 (empty_cache_reports_zero UTC_zone "2024-01-09" "2024-01-01"
                  initial_page H1 H2)).
Defined.

Lemma redraw_depends_on_cache_only_witness :
  let p := page_with january in
  let q := openModal (picture "2024-01-03")
             (snd (filterAndRenderGallery UTC_zone "2024-01-05" p)) in
  cache p = cache q
  /\ galleryContainer_children
       (snd (filterAndRenderGallery UTC_zone "2024-01-09" p))
     = galleryContainer_children
         (snd (filterAndRenderGallery UTC_zone "2024-01-09" q)).
Proof.
  cbv zeta.
  assert (cache (page_with january)
          = cache (openModal (picture "2024-01-03")
                     (snd (filterAndRenderGallery UTC_zone "2024-01-05"
                             (page_with january))))) as H
    by (vm_compute; reflexivity).
  split; [exact H|].
  exact (proj1 (proj2 (proj2 (proj2 (proj2
           (redraw_depends_on_cache_only UTC_zone "2024-01-09" _ _ H)))))).
Defined.

Lemma modal_events_keep_gallery_witness :
  (forall selectedDate, TileClick 2 <> ExploreClick selectedDate)
  /\ gallery_view
       (snd (dispatch UTC_zone (TileClick 2)
               (snd (filterAndRenderGallery UTC_zone "2024-01-09"
                       (page_with january)))))
     = gallery_view
         (snd (filterAndRenderGallery UTC_zone "2024-01-09"
                 (page_with january))).
Proof.
  assert (forall selectedDate, TileClick 2 <> ExploreClick selectedDate) as H
    by discriminate.
  split; [exact H|].
  exact (proj1 (proj2 (modal_events_keep_gallery UTC_zone (TileClick 2) _ H))).
Defined.

Lemma no_dismissal_no_change_witness :
  ((exists key, KeyDown "Escape" = KeyDown key)
   \/ (exists target, KeyDown "Escape" = ModalClick target))
  /\ dismissal (KeyDown "Escape") initial_page = false
  /\ dispatch UTC_zone (KeyDown "Escape") initial_page
     = (Normal tt, initial_page).
Proof.
  assert ((exists key, KeyDown "Escape" = KeyDown key)
          \/ (exists target, KeyDown "Escape" = ModalClick target)) as H1
    by (left; exists "Escape"; reflexivity).
  assert (dismissal (KeyDown "Escape") initial_page = false) as H2
    by reflexivity.
  split; [exact H1|]. split; [exact H2|].
  exact (no_dismissal_no_change UTC_zone (KeyDown "Escape") initial_page
           H1 H2).
Defined.

Lemma renderGallery_tiles_witness :
  nth_error (deref (page_with january) 0) 3 = Some (picture "2024-01-04")
  /\ nth_error
       (galleryContainer_children (renderGallery 0 (page_with january))) 3
     = Some (GalleryItem 3
               (itemHTML (mediaHTML_of (picture "2024-01-04"))
                  (title (picture "2024-01-04")) (date (picture "2024-01-04")))
               (picture "2024-01-04")).
Proof.
  assert (nth_error (deref (page_with january) 0) 3
          = Some (picture "2024-01-04")) as H by (vm_compute; reflexivity).
  split; [exact H|].
  exact (proj1 (proj2 (renderGallery_tiles 0 (page_with january))) 3%nat _ H).
Defined.

Lemma tile_click_opens_its_entry_witness :
  forallb well_dated (cache (page_with january)) = true
  /\ getStartDate UTC_zone "2024-01-09" = Normal "2024-01-01"
  /\ (9 <= length (selection "2024-01-01" "2024-01-09" (page_with january)))%nat
  /\ nth_error (selection "2024-01-01" "2024-01-09" (page_with january)) 0
     = Some (picture "2024-01-09")
  /\ dispatch UTC_zone (TileClick 0)
       (snd (filterAndRenderGallery UTC_zone "2024-01-09" (page_with january)))
     = (Normal tt,
        openModal (picture "2024-01-09")
          (snd (filterAndRenderGallery UTC_zone "2024-01-09"
                  (page_with january)))).
Proof.
  assert (getStartDate UTC_zone "2024-01-09" = Normal "2024-01-01") as H1
    by (vm_compute; reflexivity).
  assert (9 <= length (selection "2024-01-01" "2024-01-09"
                         (page_with january)))%nat as H2
    by (vm_compute; lia).
  assert (nth_error (selection "2024-01-01" "2024-01-09" (page_with january)) 0
          = Some (picture "2024-01-09")) as H3 by (vm_compute; reflexivity).
  assert (forallb well_dated (cache (page_with january)) = true) as H0
    by (vm_compute; reflexivity).
  split; [exact H0|].
  split; [exact H1|]. split; [exact H2|]. split; [exact H3|].
  exact (proj1 (tile_click_opens_its_entry UTC_zone "2024-01-09" "2024-01-01"
                  (page_with january) 0%nat _ H0 H1 H2 H3)).
Defined.

Lemma gallery_newest_first_witness :
  getStartDate UTC_zone "2024-01-09" = Normal "2024-01-01"
  /\ (9 <= length (selection "2024-01-01" "2024-01-09"
                     (page_with january_and_film)))%nat
  /\ forallb well_dated (cache (page_with january_and_film)) = true
  /\ exists data,
      map tile_entry
        (galleryContainer_children
           (snd (filterAndRenderGallery UTC_zone "2024-01-09"
                   (page_with january_and_film))))
      = map Some data
      /\ StronglySorted not_older data.
Proof.
  assert (getStartDate UTC_zone "2024-01-09" = Normal "2024-01-01") as H1
    by (vm_compute; reflexivity).
  assert (9 <= length (selection "2024-01-01" "2024-01-09"
                         (page_with january_and_film)))%nat as H2
    by (vm_compute; lia).
  assert (forallb well_dated (cache (page_with january_and_film)) = true)
    as H3 by (vm_compute; reflexivity).
  split; [exact H1|]. split; [exact H2|]. split; [exact H3|].
  destruct (gallery_newest_first UTC_zone "2024-01-09" "2024-01-01"
              (page_with january_and_film) H1 H2 H3) as (data & Hm & Hs & _).
  exists data. split; [exact Hm|exact Hs].
Defined.

Lemma load_success_installs_cache_witness :
  arrays (page initial_document) !! 0%nat <> None
  /\ arrays (page (fetchAPODData UTC_zone (Some january) 1704800000000
                     initial_document)) !! 0%nat
     = arrays (page initial_document) !! 0%nat.
Proof.
  assert (arrays (page initial_document) !! 0%nat <> None) as H
    by (vm_compute; discriminate).
  split; [exact H|].
  exact (proj2 (proj2 (load_success_installs_cache UTC_zone january
                         1704800000000 initial_document)) 0%nat H).
Defined.

Lemma load_success_shows_today_witness :
  zone_bounded UTC_zone
  /\ DayFromYear 1 <= Day 1704800000000 < DayFromYear 10000
  /\ exists today startDateString,
      getTodayDate 1704800000000 = Normal today
      /\ getStartDate UTC_zone today = Normal startDateString
      /\ endDateInput_value
           (fetchAPODData UTC_zone (Some january) 1704800000000
              initial_document) = today.
Proof.
  assert (DayFromYear 1 <= Day 1704800000000 < DayFromYear 10000) as H
    by closed_order.
  split; [exact zone_bounded_UTC|]. split; [exact H|].
  destruct (load_success_shows_today UTC_zone january 1704800000000
              initial_document zone_bounded_UTC H)
    as (today & s & H1 & H2 & H3 & _).
  exists today, s. split; [exact H1|]. split; [exact H2|exact H3].
Defined.

Lemma explore_after_load_redraws_witness :
  zone_bounded UTC_zone
  /\ DayFromYear 1 <= Day 1704800000000 < DayFromYear 10000
  /\ gallery_view
       (page (snd (happen UTC_zone ExploreButton
                     (fetchAPODData UTC_zone (Some january) 1704800000000
                        initial_document))))
     = gallery_view
         (page (fetchAPODData UTC_zone (Some january) 1704800000000
                  initial_document)).
Proof.
  assert (DayFromYear 1 <= Day 1704800000000 < DayFromYear 10000) as H
    by closed_order.
  split; [exact zone_bounded_UTC|]. split; [exact H|].
  exact (proj1 (proj2 (explore_after_load_redraws UTC_zone january
                         1704800000000 initial_document zone_bounded_UTC H))).
Defined.

Lemma gallery_stays_all_or_nothing_witness :
  all_or_nothing (page initial_document)
  /\ all_or_nothing (page (run UTC_zone a_session initial_document)).
Proof.
  assert (all_or_nothing (page initial_document)) as H
    by (left; reflexivity).
  split; [exact H|].
  exact (gallery_stays_all_or_nothing UTC_zone a_session initial_document H).
Defined.

Lemma tiles_stay_in_cache_witness :
  tiles_of_cache (page initial_document)
  /\ tiles_of_cache (page (run UTC_zone a_session initial_document)).
Proof.
  assert (tiles_of_cache (page initial_document)) as H
    by (intros n Hn; destruct Hn).
  split; [exact H|].
  exact (tiles_stay_in_cache UTC_zone a_session initial_document H).
Defined.

Lemma gallery_stays_shown_alone_witness :
  gallery_shown_alone (page initial_document)
  /\ gallery_shown_alone (page (run UTC_zone a_session initial_document)).
Proof.
  assert (gallery_shown_alone (page initial_document)) as H
    by (intros _; split; reflexivity).
  split; [exact H|].
  exact (gallery_stays_shown_alone UTC_zone a_session initial_document H).
Defined.

Lemma modal_media_stays_guarded_witness :
  modal_media_guarded (page initial_document)
  /\ modal_media_guarded (page (run UTC_zone a_session initial_document)).
Proof.
  assert (modal_media_guarded (page initial_document)) as H
    by (split; [cbn; lia|reflexivity]).
  split; [exact H|].
  exact (modal_media_stays_guarded UTC_zone a_session initial_document H).
Defined.

Lemma filter_compares_days_witness :
  Date_parse "2024-01-01" = Some 1704067200000
  /\ Date_parse "2024-01-09" = Some 1704758400000
  /\ Date_parse (date (picture "2024-01-05")) = Some 1704412800000
  /\ (in_window "2024-01-01" "2024-01-09" (picture "2024-01-05") = true
      <-> 1704067200000 <= 1704412800000 <= 1704758400000).
Proof.
  assert (Date_parse "2024-01-01" = Some 1704067200000) as H1
    by (vm_compute; reflexivity).
  assert (Date_parse "2024-01-09" = Some 1704758400000) as H2
    by (vm_compute; reflexivity).
  assert (Date_parse (date (picture "2024-01-05")) = Some 1704412800000)
    as H3 by (vm_compute; reflexivity).
  split; [exact H1|]. split; [exact H2|]. split; [exact H3|].
  exact (filter_compares_days "2024-01-01" "2024-01-09"
           (picture "2024-01-05") _ _ _ H1 H2 H3).
Defined.

Lemma start_date_eight_days_back_witness :
  zone_fixed UTC_zone
  /\ Date_parse "2024-03-08" = Some 1709856000000
  /\ DayFromYear 0 + 8 <= Day 1709856000000
  /\ exists startDateString,
      getStartDate UTC_zone "2024-03-08" = Normal startDateString
      /\ Date_parse startDateString = Some (1709856000000 - 8 * msPerDay)
      /\ str_le startDateString "2024-03-08" = true.
Proof.
  assert (Date_parse "2024-03-08" = Some 1709856000000) as H1
    by (vm_compute; reflexivity).
  assert (DayFromYear 0 + 8 <= Day 1709856000000) as H2
    by (vm_compute; discriminate).
  split; [exact zone_fixed_UTC|]. split; [exact H1|]. split; [exact H2|].
  exact (start_date_eight_days_back UTC_zone "2024-03-08" _
           zone_fixed_UTC H1 H2).
Defined.

Lemma window_is_nine_days_witness :
  zone_fixed UTC_zone
  /\ Date_parse "2024-01-09" = Some 1704758400000
  /\ DayFromYear 0 + 8 <= Day 1704758400000
  /\ getStartDate UTC_zone "2024-01-09" = Normal "2024-01-01"
  /\ Date_parse (date (picture "2024-01-10")) = Some 1704844800000
  /\ (in_window "2024-01-01" "2024-01-09" (picture "2024-01-10") = true
      <-> Day 1704758400000 - 8 <= Day 1704844800000 <= Day 1704758400000).
Proof.
  assert (Date_parse "2024-01-09" = Some 1704758400000) as H1
    by (vm_compute; reflexivity).
  assert (DayFromYear 0 + 8 <= Day 1704758400000) as H2
    by (vm_compute; discriminate).
  assert (getStartDate UTC_zone "2024-01-09" = Normal "2024-01-01") as H3
    by (vm_compute; reflexivity).
  assert (Date_parse (date (picture "2024-01-10")) = Some 1704844800000)
    as H4 by (vm_compute; reflexivity).
  split; [exact zone_fixed_UTC|]. split; [exact H1|]. split; [exact H2|].
  split; [exact H3|]. split; [exact H4|].
  exact (window_is_nine_days UTC_zone "2024-01-09" "2024-01-01" _
           (picture "2024-01-10") _ zone_fixed_UTC H1 H2 H3 H4).
Defined.

Lemma end_date_entry_qualifies_witness :
  zone_bounded Eastern_2024
  /\ Date_parse "2024-11-05" = Some 1730764800000
  /\ DayFromYear 0 + 10 <= Day 1730764800000
  /\ date (picture "2024-11-05") = "2024-11-05"
  /\ exists startDateString ts,
      getStartDate Eastern_2024 "2024-11-05" = Normal startDateString
      /\ Date_parse startDateString = Some ts
      /\ Day 1730764800000 - 10 <= Day ts <= Day 1730764800000 - 7
      /\ in_window startDateString "2024-11-05" (picture "2024-11-05") = true.
Proof.
  assert (Date_parse "2024-11-05" = Some 1730764800000) as H1
    by (vm_compute; reflexivity).
  assert (DayFromYear 0 + 10 <= Day 1730764800000) as H2
    by (vm_compute; discriminate).
  assert (date (picture "2024-11-05") = "2024-11-05") as H3 by reflexivity.
  split; [exact zone_bounded_Eastern|]. split; [exact H1|].
  split; [exact H2|]. split; [exact H3|].
  exact (end_date_entry_qualifies Eastern_2024 "2024-11-05" _
           (picture "2024-11-05") zone_bounded_Eastern H1 H2 H3).
Defined.

Lemma gallery_ignores_cache_order_witness :
  Permutation (cache (page_with january)) (cache (page_with (rev january)))
  /\ forallb well_dated (cache (page_with january)) = true
  /\ List.NoDup (map date (cache (page_with january)))
  /\ galleryContainer_children
       (snd (filterAndRenderGallery UTC_zone "2024-01-09" (page_with january)))
     = galleryContainer_children
         (snd (filterAndRenderGallery UTC_zone "2024-01-09"
                 (page_with (rev january)))).
Proof.
  assert (Permutation (cache (page_with january))
            (cache (page_with (rev january)))) as H1
    by (change (Permutation january (rev january)); apply Permutation_rev).
  assert (forallb well_dated (cache (page_with january)) = true) as H2
    by (vm_compute; reflexivity).
  assert (List.NoDup (map date (cache (page_with january)))) as H3.
  { change (List.NoDup (map date january)). cbn [map january date picture].
    repeat (constructor;
            [cbn; intros H;
             repeat (destruct H as [H|H]; [discriminate H|]); exact H|]).
    constructor. }
  split; [exact H1|]. split; [exact H2|]. split; [exact H3|].
  exact (proj1 (proj2 (gallery_ignores_cache_order UTC_zone "2024-01-09"
                         _ _ H1 H2 H3))).
Defined.
